(** * RH dashboard: the data preparation and filtering pipeline of [app.py]

    A shallow embedding of the loader ([load_and_prepare_data]), of the
    sidebar filters with the options of their select boxes and the ends of
    the salary slider, of the KPI block and of the text [brl] prints, of the
    columns the chart section adds to [df_filtered], and of what the table
    and the two downloads are given.

    Conventions.
    - A pandas [DataFrame] is a list of labelled, typed columns together with
      its rows; a row maps a label to a cell.
    - The labels of a frame are meant distinct, as [read_excel] delivers
      them.  Two headers that normalize to one label give pandas two columns
      under that label, which a row of this model cannot hold: a theorem
      that needs [df[label]] to be one column asks for distinct labels.
    - A cell is missing ([NaN], which also stands for [None] and [NaT]), a
      text, a number or a timestamp.  Numbers are exact rationals;
      timestamps count nanoseconds since 1970-01-01.
    - A text is a sequence of characters with codes below 256, one
      character per code point of Latin-1; the characters beyond are outside
      the model.
    - An exception is an explicit [Raise]; the [try]/[except] of the loader
      and of [brl] are written out.
    - Library functions whose tables are not part of the repository
      (Unicode decomposition, the date parser, the printing of numbers, the
      regular-expression engine beyond literals and dots) are variables of
      the section.
    - Widgets are represented by the value they hand back to the script,
      or by the exception they raise for arguments they refuse. *)

From Stdlib Require Import QArith Ascii String.
From stdpp Require Import base option list strings gmap fin_maps.

Local Open Scope Z_scope.

(** ** Exceptions and results *)

Inductive exn : Type :=
  | KeyError (label : string)
  | ValueError
  | TypeError
  | AttributeError
  | ReError
  | StreamlitAPIException.

Inductive result (A : Type) : Type :=
  | Ok (a : A)
  | Raise (e : exn).
Arguments Ok {A} a.
Arguments Raise {A} e.

(** Sequencing: an exception of the first step skips the rest. *)
#[global] Instance result_bind : MBind result := fun A B k m =>
  match m with
  | Ok a => k a
  | Raise e => Raise e
  end.

#[global] Instance result_fmap : FMap result := fun A B f m =>
  match m with
  | Ok a => Ok (f a)
  | Raise e => Raise e
  end.

Definition is_ok {A : Type} (m : result A) : bool :=
  match m with Ok _ => true | Raise _ => false end.

(** ** Cells, rows and frames *)

Inductive cell : Type :=
  | NaN
  | Str (s : string)
  | Num (q : Q)
  | Ts (ns : Z).

Inductive dtype : Type := object | float64 | int64 | datetime64.

#[global] Instance dtype_eq_dec : EqDecision dtype.
Proof. solve_decision. Defined.

Abbreviation row := (gmap string cell).

Record DataFrame : Type := mkFrame {
  columns : list (string * dtype);
  rows : list row
}.

(** [pd.DataFrame()] *)
Definition empty_frame : DataFrame := mkFrame [] [].

Definition labels (df : DataFrame) : list string := (columns df).*1.

(** [col in df.columns] *)
Definition has_col (col : string) (df : DataFrame) : bool :=
  bool_decide (col ∈ labels df).

(** The cell of a row under a label; a row that lacks it reads as missing. *)
Definition at_col (r : row) (col : string) : cell := default NaN (r !! col).

Definition dtype_of (col : string) (df : DataFrame) : option dtype :=
  (fun p => p.2.2) <$> list_find (fun cd => cd.1 = col) (columns df).

(** [df[col]]: the column as a list of cells, a [KeyError] without it. *)
Definition getitem (col : string) (df : DataFrame) : result (list cell) :=
  if has_col col df then Ok ((fun r => at_col r col) <$> rows df)
  else Raise (KeyError col).

Definition set_dtype (col : string) (d : dtype) (cs : list (string * dtype))
  : list (string * dtype) :=
  if bool_decide (col ∈ cs.*1)
  then (fun cd => if bool_decide (cd.1 = col) then (col, d) else cd) <$> cs
  else cs ++ [(col, d)].

(** [df[col] = f(row)]: overwrite the column, or append it when new. *)
Definition assign (col : string) (d : dtype) (f : row -> cell) (df : DataFrame)
  : DataFrame :=
  mkFrame (set_dtype col d (columns df)) ((fun r => <[col := f r]> r) <$> rows df).

(** [df[mask]]: the rows the mask keeps, under the same columns. *)
Definition select_rows (mask : row -> bool) (df : DataFrame) : DataFrame :=
  mkFrame (columns df) (List.filter mask (rows df)).

(** [df.drop(columns=cols, errors='ignore')] *)
Definition drop_columns (cols : list string) (df : DataFrame) : DataFrame :=
  mkFrame (List.filter (fun cd => negb (bool_decide (cd.1 ∈ cols))) (columns df))
          ((fun r => foldr delete r cols) <$> rows df).

(** [df.empty]: no row or no column. *)
Definition empty (df : DataFrame) : bool :=
  match rows df, columns df with
  | [], _ | _, [] => true
  | _, _ => false
  end.

Definition notna (c : cell) : bool :=
  match c with NaN => false | _ => true end.

(** Elementwise [==] of a column against a scalar: a missing cell equals
    nothing, values of different kinds are unequal. *)
Definition cell_eqb (c v : cell) : bool :=
  match c, v with
  | Str a, Str b => bool_decide (a = b)
  | Num a, Num b => Qeq_bool a b
  | Ts a, Ts b => a =? b
  | _, _ => false
  end.

(** ** Text *)

Fixpoint string_map (f : ascii -> ascii) (s : string) : string :=
  match s with
  | EmptyString => EmptyString
  | String a t => String (f a) (string_map f t)
  end.

Fixpoint string_filter (p : ascii -> bool) (s : string) : string :=
  match s with
  | EmptyString => EmptyString
  | String a t => if p a then String a (string_filter p t) else string_filter p t
  end.

Fixpoint string_forallb (p : ascii -> bool) (s : string) : bool :=
  match s with
  | EmptyString => true
  | String a t => p a && string_forallb p t
  end.

Definition code (a : ascii) : N := N_of_ascii a.

Definition in_range (lo hi : N) (a : ascii) : bool :=
  ((lo <=? code a) && (code a <=? hi))%N.

Definition is_upper (a : ascii) : bool := in_range 65 90 a.
Definition is_lower (a : ascii) : bool := in_range 97 122 a.
Definition is_digit (a : ascii) : bool := in_range 48 57 a.

(** The characters [str.strip()] removes, and [\s] matches, among those
    below 256. *)
Definition is_space (a : ascii) : bool :=
  in_range 9 13 a || in_range 28 32 a || (code a =? 133)%N || (code a =? 160)%N.

(** The letters of Latin-1 beyond a-z and A-Z: the capitals 192-222 and
    the small letters 224-254, each 32 above its capital; 215 and 247 are
    the signs of multiplication and division. *)
Definition is_upper_latin (a : ascii) : bool :=
  in_range 192 214 a || in_range 216 222 a.
Definition is_lower_latin (a : ascii) : bool :=
  in_range 224 246 a || in_range 248 254 a.

Definition upper_char (a : ascii) : ascii :=
  if is_lower a || is_lower_latin a then ascii_of_N (code a - 32) else a.
Definition lower_char (a : ascii) : ascii :=
  if is_upper a || is_upper_latin a then ascii_of_N (code a + 32) else a.

(** [str.upper()], and the case folding of a case-insensitive match
    ([re.IGNORECASE] compares the small letters of the two characters).
    Three small letters have no capital in Latin-1 and are left as they
    are by [str_upper]: the sharp s (223, capital "SS"), the y with
    diaeresis (255) and the micro sign (181), whose capitals lie beyond. *)
Definition str_upper : string -> string := string_map upper_char.
Definition str_lower : string -> string := string_map lower_char.

Fixpoint lstrip (s : string) : string :=
  match s with
  | String a t => if is_space a then lstrip t else s
  | EmptyString => EmptyString
  end.

Fixpoint rstrip (s : string) : string :=
  match s with
  | EmptyString => EmptyString
  | String a t =>
      match rstrip t with
      | EmptyString => if is_space a then EmptyString else String a EmptyString
      | t' => String a t'
      end
  end.

(** [str.strip()] *)
Definition str_strip (s : string) : string := rstrip (lstrip s).

(** The class [[a-zA-Z0-9_]]. *)
Definition is_word (a : ascii) : bool :=
  is_lower a || is_upper a || is_digit a || (code a =? 95)%N.

(** [.str.replace(' ', '_').str.replace('[^a-zA-Z0-9_]', '', regex=True)] *)
Definition replace_and_strip (s : string) : string :=
  string_filter is_word
    (string_map (fun a => if (code a =? 32)%N then "_"%char else a) s).

(** ** Dates *)

Definition ns_per_day : Z := 86400 * 1000000000.

(** The civil year of a day number counted from 1970-01-01 (proleptic
    Gregorian calendar). *)
Definition year_of_day (d : Z) : Z :=
  let z := d + 719468 in
  let era := z / 146097 in
  let doe := z - era * 146097 in
  let yoe := (doe - doe / 1460 + doe / 36524 - doe / 146096) / 365 in
  let doy := doe - (365 * yoe + yoe / 4 - yoe / 100) in
  let mp := (5 * doy + 2) / 153 in
  let m := if mp <? 10 then mp + 3 else mp - 9 in
  if m <=? 2 then yoe + era * 400 + 1 else yoe + era * 400.

(** [.dt.year] of a timestamp. *)
Definition year_of (ns : Z) : Z := year_of_day (ns / ns_per_day).

(** [int(x)] of a number: truncation towards zero. *)
Definition int_of (q : Q) : Z := Z.quot (Qnum q) (Zpos (Qden q)).

(** ** Regular expressions: the fragment of literals and dots

    [Series.str.contains(pat, case=False)] reads [pat] as a regular
    expression.  A pattern in which every character is a literal or a dot
    is matched here; any other operator is left to the engine. *)

Definition is_operator (a : ascii) : bool :=
  existsb (Ascii.eqb a) (list_ascii_of_string "^$*+?{}[]\|()").

Definition is_meta (a : ascii) : bool := Ascii.eqb a "." || is_operator a.

Definition newline : ascii := "010".

(** One pattern character against one character of the text, ignoring case:
    a dot takes anything but a newline. *)
Definition unit_match (p c : ascii) : bool :=
  if Ascii.eqb p "." then negb (Ascii.eqb c newline)
  else Ascii.eqb (lower_char p) (lower_char c).

Fixpoint match_here (pat text : string) : bool :=
  match pat, text with
  | EmptyString, _ => true
  | String p pt, String c ct => unit_match p c && match_here pt ct
  | String _ _, EmptyString => false
  end.

(** [re.search]: a match starting at some position of the text. *)
Fixpoint search (pat text : string) : bool :=
  match_here pat text ||
  match text with
  | String _ t => search pat t
  | EmptyString => false
  end.

(** ** The region code of an address: [-\s(..),?$] *)

Definition at_end (t : string) : bool :=
  match t with
  | EmptyString => true
  | String a EmptyString => Ascii.eqb a newline
  | _ => false
  end.

Definition estado_here (t : string) : option string :=
  match t with
  | String d (String w (String c1 (String c2 rest))) =>
      if Ascii.eqb d "-" && is_space w
         && negb (Ascii.eqb c1 newline) && negb (Ascii.eqb c2 newline)
      then
        match rest with
        | String "," rest' =>
            if at_end rest' then Some (String c1 (String c2 EmptyString)) else None
        | _ =>
            if at_end rest then Some (String c1 (String c2 EmptyString)) else None
        end
      else None
  | _ => None
  end.

Fixpoint extract_estado (t : string) : option string :=
  match estado_here t with
  | Some e => Some e
  | None =>
      match t with
      | String _ t' => extract_estado t'
      | EmptyString => None
      end
  end.

(** ** Columns as series *)

(** [Series.dropna()] *)
Definition dropna (cs : list cell) : list cell := List.filter notna cs.

(** The numbers of a series once the missing cells are skipped; a text or a
    timestamp among them is a [TypeError] of the reduction. *)
Fixpoint numbers (cs : list cell) : result (list Q) :=
  match cs with
  | [] => Ok []
  | NaN :: t => numbers t
  | Num q :: t => qs ← numbers t; Ok (q :: qs)
  | _ :: _ => Raise TypeError
  end.

Definition Qsum (qs : list Q) : Q := foldr Qplus (0 # 1)%Q qs.

Definition qmin (a b : Q) : Q := if Qle_bool a b then a else b.
Definition qmax (a b : Q) : Q := if Qle_bool a b then b else a.

(** [Series.sum()] *)
Definition series_sum (cs : list cell) : result Q := Qsum <$> numbers cs.

Section App.

(** [.str.normalize('NFKD').str.encode('ascii', 'ignore').str.decode('utf-8')] *)
Variable ascii_fold : string -> string.
(** What [pd.to_datetime] reads in a text or a number; [None] when it
    cannot. *)
Variable parse_datetime : cell -> option Z.
(** [str(x)] of a number or of a timestamp. *)
Variable str_of_value : cell -> string.
(** [re.compile] for a pattern with operators other than the dot: [None] is
    [re.error], otherwise the case-insensitive [search] of the pattern. *)
Variable re_compile : string -> option (string -> bool).

(** The file system: [None] when [os.path.exists] is false, otherwise what
    [pd.read_excel] does with the file. *)
Variable read_excel : string -> option (result DataFrame).
(** [pd.Timestamp(date.today())], in nanoseconds: a midnight. *)
Variable today : Z.

(** ** 2. load_and_prepare_data *)

Definition normalize_label (s : string) : string := replace_and_strip (ascii_fold s).

(** [df.columns = df.columns.str. ...]: every label is rewritten.  (Two
    labels rewritten to the same one leave the frames of this model: see
    the conventions.) *)
Definition normalize_columns (df : DataFrame) : DataFrame :=
  mkFrame ((fun cd : string * dtype => (normalize_label cd.1, cd.2)) <$> columns df)
          ((fun r : row => (kmap normalize_label r : row)) <$> rows df).

Definition date_cols : list string :=
  ["Data_de_Nascimento"; "Data_de_Contratacao"; "Data_de_Demissao"]%string.

(** [pd.to_datetime(..., errors="coerce")] on one cell. *)
Definition to_datetime (c : cell) : cell :=
  match c with
  | NaN => NaN
  | Ts t => Ts t
  | Str _ | Num _ => from_option Ts NaN (parse_datetime c)
  end.

(** One turn of the loop over [date_cols]. *)
Definition coerce_column (df : DataFrame) (col : string) : DataFrame :=
  if has_col col df
  then assign col datetime64 (fun r => to_datetime (at_col r col)) df
  else df.

Definition coerce_dates (df : DataFrame) : DataFrame :=
  foldl coerce_column df date_cols.

(** [(today - birth).dt.days]: whole days, rounded down. *)
Definition days_since (birth : Z) : Z := (today - birth) / ns_per_day.

(** [(days / 365.25).astype(int)]: the quotient truncated towards zero. *)
Definition idade_of_days (days : Z) : Z := Z.quot (4 * days) 1461.

Definition idade (birth : cell) : option Z :=
  match birth with
  | Ts t => Some (idade_of_days (days_since t))
  | _ => None
  end.

(** The age column.  A missing birth date gives a missing number of days,
    which [astype(int)] refuses for the whole column. *)
Definition add_idade (df : DataFrame) : result DataFrame :=
  if has_col "Data_de_Nascimento" df then
    if forallb (fun r => bool_decide (is_Some (idade (at_col r "Data_de_Nascimento"))))
               (rows df)
    then Ok (assign "Idade" int64
               (fun r => from_option (fun a => Num (inject_Z a)) NaN
                           (idade (at_col r "Data_de_Nascimento"))) df)
    else Raise ValueError
  else Ok df.

Definition add_status (df : DataFrame) : DataFrame :=
  if has_col "Data_de_Demissao" df
  then assign "Status" object
         (fun r => if notna (at_col r "Data_de_Demissao")
                   then Str "Desligado" else Str "Ativo") df
  else assign "Status" object (fun _ => Str "Ativo") df.

(** [astype(str)] on one cell. *)
Definition astype_str (c : cell) : string :=
  match c with
  | NaN => "nan"
  | Str s => s
  | Num _ | Ts _ => str_of_value c
  end.

(** [lambda x: 'M' if x == 'M' else 'F' if x == 'F' else np.nan] *)
Definition m_or_f (x : cell) : cell :=
  if cell_eqb x (Str "M") then Str "M"
  else if cell_eqb x (Str "F") then Str "F"
  else NaN.

Definition normalize_sexo (df : DataFrame) : DataFrame :=
  if has_col "Sexo" df then
    let df1 := assign "Sexo" object
                 (fun r => Str (str_strip (str_upper (astype_str (at_col r "Sexo"))))) df in
    assign "Sexo" object (fun r => m_or_f (at_col r "Sexo")) df1
  else df.

(** The two assignments to [df["Sexo"]] seen from one cell. *)
Definition gender (c : cell) : cell :=
  m_or_f (Str (str_strip (str_upper (astype_str c)))).

(** The body of the [try] block after the file is read. *)
Definition prepare (df : DataFrame) : result DataFrame :=
  let df := normalize_columns df in
  let df := coerce_dates df in
  df ← add_idade df;
  let df := add_status df in
  Ok (normalize_sexo df).

Definition load_and_prepare_data (file_path : string) : DataFrame * bool :=
  match read_excel file_path with
  | None => (empty_frame, false)
  | Some read =>
      match read ≫= prepare with
      | Ok df => (df, true)
      | Raise _ => (empty_frame, false)
      end
  end.

(** ** 5. The sidebar filters *)

(** What the widgets hand back: the option picked in each select box
    ([Str "Todos"] is the first option of each), the pair picked on the salary
    slider ([None] while it stands at its default, the two ends), and the
    text of the search box. *)
Record Sidebar : Type := mkSidebar {
  selected_area : cell;
  selected_nivel : cell;
  selected_cargo : cell;
  sal_range : option (Z * Z);
  selected_status : cell;
  search_query : string
}.

(** [selected != "Todos"] *)
Definition not_todos (selected : cell) : bool :=
  match selected with
  | Str s => negb (bool_decide (s = "Todos"%string))
  | _ => true
  end.

(** One select-box filter: skipped without the column or at "Todos". *)
Definition filter_equal (col : string) (selected : cell) (df_filtered : DataFrame)
  : DataFrame :=
  if has_col col df_filtered then
    if not_todos selected
    then select_rows (fun r => cell_eqb (at_col r col) selected) df_filtered
    else df_filtered
  else df_filtered.

Definition filter_area : cell -> DataFrame -> DataFrame := filter_equal "Area".
Definition filter_nivel : cell -> DataFrame -> DataFrame := filter_equal "Nivel".
Definition filter_cargo : cell -> DataFrame -> DataFrame := filter_equal "Cargo".
Definition filter_status : cell -> DataFrame -> DataFrame := filter_equal "Status".

(** [(col >= lo) & (col <= hi)] on one cell; a missing salary compares
    false. *)
Definition in_sal_range (lo hi : Z) (c : cell) : bool :=
  match c with
  | Num q => Qle_bool (inject_Z lo) q && Qle_bool q (inject_Z hi)
  | _ => false
  end.

(** The largest whole number a widget accepts, JavaScript's
    [Number.MAX_SAFE_INTEGER]. *)
Definition max_safe_integer : Z := 2 ^ 53 - 1.

(** [st.sidebar.slider(label, min_value, max_value, (min_value, max_value))]
    with whole ends: a [StreamlitAPIException] unless [min_value] is less
    than [max_value] and both are safe integers; otherwise the pair picked,
    the two ends while the slider is left alone. *)
Definition slider (min_value max_value : Z) (choice : option (Z * Z))
  : result (Z * Z) :=
  if (min_value <? max_value) && (- max_safe_integer <=? min_value)
     && (max_value <=? max_safe_integer)
  then Ok (default (min_value, max_value) choice)
  else Raise StreamlitAPIException.

(** The salary slider: shown when the column has a value, bounded by
    [int(min)] and [int(max)], and always applied. *)
Definition filter_salario (choice : option (Z * Z)) (df_filtered : DataFrame)
  : result DataFrame :=
  if has_col "Salario_Base" df_filtered then
    let col := (fun r => at_col r "Salario_Base") <$> rows df_filtered in
    match dropna col with
    | [] => Ok df_filtered
    | _ :: _ =>
        qs ← numbers col;
        match qs with
        | [] => Ok df_filtered
        | q :: qs' =>
            let min_sal := int_of (foldr qmin q qs') in
            let max_sal := int_of (foldr qmax q qs') in
            picked ← slider min_sal max_sal choice;
            let '(lo, hi) := picked in
            Ok (select_rows (fun r => in_sal_range lo hi (at_col r "Salario_Base"))
                            df_filtered)
        end
    end
  else Ok df_filtered.

(** The pattern of the search box as [str.contains] compiles it. *)
Definition re_search (pat : string) : option (string -> bool) :=
  if string_forallb (fun a => negb (is_operator a)) pat
  then Some (search pat)
  else re_compile pat.

(** [.str.contains(pat, case=False, na=False)] on one cell: anything that is
    not a text counts as no match. *)
Definition contains (found : string -> bool) (c : cell) : bool :=
  match c with
  | Str s => found s
  | _ => false
  end.

(** The name search: no test of the column here. *)
Definition filter_nome (query : string) (df_filtered : DataFrame) : result DataFrame :=
  if bool_decide (query = EmptyString) then Ok df_filtered
  else
    if has_col "Nome_Completo" df_filtered then
      match dtype_of "Nome_Completo" df_filtered with
      | Some object =>
          match re_search query with
          | Some found =>
              Ok (select_rows (fun r => contains found (at_col r "Nome_Completo"))
                              df_filtered)
          | None => Raise ReError
          end
      | _ => Raise AttributeError
      end
    else Raise (KeyError "Nome_Completo").

Definition sidebar_filters (w : Sidebar) (df : DataFrame) : result DataFrame :=
  let df_filtered := df in
  let df_filtered := filter_area (selected_area w) df_filtered in
  let df_filtered := filter_nivel (selected_nivel w) df_filtered in
  let df_filtered := filter_cargo (selected_cargo w) df_filtered in
  df_filtered ← filter_salario (sal_range w) df_filtered;
  let df_filtered := filter_status (selected_status w) df_filtered in
  filter_nome (search_query w) df_filtered.

(** ** 7. The KPI block *)

(** What a metric card shows. *)
Inductive kpi_text : Type :=
  | NA
  | Reais (x : cell)
  | ReaisZero
  | Texto (s : string)
  | Anos (x : cell).

(** [brl]: the amount as currency.  A text has no format code [f]: the
    [ValueError] is caught and the answer is "R$ 0,00".  A timestamp formats
    itself through [strftime], which hands the format ",.2f" back: after
    the three replacements the answer is "R$ .,2f". *)
Definition brl (x : cell) : kpi_text :=
  match x with
  | Num _ | NaN => Reais x
  | Str _ => ReaisZero
  | Ts _ => Texto "R$ .,2f"
  end.

(** [Series.mean()]: the sum over the count of the values present, missing
    when there is none. *)
Definition series_mean (cs : list cell) : result cell :=
  qs ← numbers cs;
  match qs with
  | [] => Ok NaN
  | _ :: _ => Ok (Num (Qsum qs / inject_Z (Z.of_nat (length qs))))
  end.

Definition count_eq (col : string) (v : cell) (df : DataFrame) : result nat :=
  cs ← getitem col df;
  Ok (length (List.filter (fun c => cell_eqb c v) cs)).

(** [len(df[df[col].dt.year == today.year])] *)
Definition count_this_year (col : string) (df : DataFrame) : result nat :=
  cs ← getitem col df;
  match dtype_of col df with
  | Some datetime64 =>
      Ok (length (List.filter
                    (fun c => match c with
                              | Ts t => year_of t =? year_of today
                              | _ => false
                              end) cs))
  | _ => Raise AttributeError
  end.

(** [len(df[df.get("Sexo") == v])]: without the column [get] answers
    [None], the comparison [False], and indexing by it is a [KeyError]. *)
Definition count_sexo (v : cell) (df : DataFrame) : result nat :=
  if has_col "Sexo" df then count_eq "Sexo" v df
  else Raise (KeyError "False").

Definition folha_salarial_anual (df_filtered : DataFrame) : result Q :=
  cs ← getitem "Salario_Base" df_filtered;
  total ← series_sum cs;
  Ok (total * 12)%Q.

Definition folha_salarial_anual_fmt (df_filtered : DataFrame) : result kpi_text :=
  if has_col "Salario_Base" df_filtered
  then x ← folha_salarial_anual df_filtered; Ok (brl (Num x))
  else Ok NA.

Definition salario_medio_fmt (df_filtered : DataFrame) : result kpi_text :=
  if has_col "Salario_Base" df_filtered && (0 <? length (rows df_filtered))%nat
  then cs ← getitem "Salario_Base" df_filtered; x ← series_mean cs; Ok (brl x)
  else Ok NA.

Definition idade_media_fmt (df_filtered : DataFrame) : result kpi_text :=
  if has_col "Idade" df_filtered && (0 <? length (rows df_filtered))%nat
  then cs ← getitem "Idade" df_filtered; x ← series_mean cs; Ok (Anos x)
  else Ok NA.

Record KPIs : Type := mkKPIs {
  headcount_total : nat;
  headcount_ativo : nat;
  novas_contratacoes : nat;
  total_demissoes : nat;
  masculino_count : nat;
  feminino_count : nat;
  folha_card : kpi_text;
  salario_medio_card : kpi_text;
  idade_media_card : kpi_text
}.

Definition kpis (df_filtered : DataFrame) : result KPIs :=
  let total := length (rows df_filtered) in
  ativo ← count_eq "Status" (Str "Ativo") df_filtered;
  novas ← count_this_year "Data_de_Contratacao" df_filtered;
  demissoes ← count_eq "Status" (Str "Desligado") df_filtered;
  masc ← count_sexo (Str "M") df_filtered;
  fem ← count_sexo (Str "F") df_filtered;
  folha ← folha_salarial_anual_fmt df_filtered;
  salario ← salario_medio_fmt df_filtered;
  idade_media ← idade_media_fmt df_filtered;
  Ok (mkKPIs total ativo novas demissoes masc fem folha salario idade_media).

(** ** 8. The columns the chart section adds to [df_filtered]

    The figures themselves belong to the plotting library; what stays in
    the script is what each block writes into [df_filtered]. *)

(** [pd.cut(..., bins=[0, 18, 25, 35, 45, 55, 65, 100], labels=..., right=False)] *)
Definition faixa_etaria (c : cell) : result cell :=
  match c with
  | NaN => Ok NaN
  | Num q =>
      let below (b : Z) := negb (Qle_bool (inject_Z b) q) in
      Ok (if below 0 then NaN
          else if below 18 then Str "0-18"
          else if below 25 then Str "19-25"
          else if below 35 then Str "26-35"
          else if below 45 then Str "36-45"
          else if below 55 then Str "46-55"
          else if below 65 then Str "56-65"
          else if below 100 then Str "65+"
          else NaN)
  | Str _ | Ts _ => Raise TypeError
  end.

Definition add_faixa_etaria (df_filtered : DataFrame) : result DataFrame :=
  if has_col "Idade" df_filtered then
    if forallb (fun r => is_ok (faixa_etaria (at_col r "Idade"))) (rows df_filtered)
    then Ok (assign "Faixa_Etaria" object
               (fun r => match faixa_etaria (at_col r "Idade") with
                         | Ok c => c
                         | Raise _ => NaN
                         end) df_filtered)
    else Raise TypeError
  else Ok df_filtered.

Definition cost_components : list string :=
  ["Salario_Base"; "Impostos"; "Beneficios"; "VT"; "VR"]%string.

(** [df_filtered[custo_cols].sum(axis=1)] on one row. *)
Definition custo_total (custo_cols : list string) (r : row) : result Q :=
  series_sum ((fun c => at_col r c) <$> custo_cols).

Definition add_custo_total (df_filtered : DataFrame) : result DataFrame :=
  if negb (has_col "Custo_Total_Mensal" df_filtered) then
    let custo_cols := List.filter (fun c => has_col c df_filtered) cost_components in
    if forallb (fun r => is_ok (custo_total custo_cols r)) (rows df_filtered)
    then Ok (assign "Custo_Total_Mensal" float64
               (fun r => match custo_total custo_cols r with
                         | Ok q => Num q
                         | Raise _ => NaN
                         end) df_filtered)
    else Raise TypeError
  else Ok df_filtered.

(** The label the map block tests, "Endereco" written with its cedilla:
    the character 231. *)
Definition endereco : string := String.append "Endere" (String "231" "o").

Definition add_estado (df_filtered : DataFrame) : result DataFrame :=
  if has_col endereco df_filtered then
    match dtype_of endereco df_filtered with
    | Some object =>
        Ok (assign "Estado" object
              (fun r => match at_col r endereco with
                        | Str s => from_option Str (Str "Outro") (extract_estado s)
                        | _ => Str "Outro"
                        end) df_filtered)
    | _ => Raise AttributeError
    end
  else Ok df_filtered.

Definition charts (df_filtered : DataFrame) : result DataFrame :=
  df_filtered ← add_faixa_etaria df_filtered;
  df_filtered ← add_custo_total df_filtered;
  add_estado df_filtered.

(** ** 9. The table and the downloads *)

Definition transient_cols : list string :=
  ["Estado"; "Faixa_Etaria"; "Custo_Total_Mensal"]%string.

(** What a writer is given: the header and, row by row, the cells under
    it.  [to_csv(index=False)] and [to_excel(index=False)] serialise this. *)
Definition records (df : DataFrame) : list string * list (list cell) :=
  (labels df, (fun r => (fun c => at_col r c) <$> labels df) <$> rows df).

Record Page : Type := mkPage {
  cards : KPIs;
  df_display : option DataFrame;
  csv_bytes : option (list string * list (list cell));
  excel_buffer : list string * list (list cell)
}.

Definition table_and_downloads (k : KPIs) (df_filtered : DataFrame) : Page :=
  mkPage k
    (if negb (empty df_filtered)
     then Some (drop_columns transient_cols df_filtered) else None)
    (if negb (empty df_filtered) then Some (records df_filtered) else None)
    (records df_filtered).

(** The script from the load to the downloads; [None] is [st.stop()]. *)
Definition app (w : Sidebar) : result (option Page) :=
  let '(df, success) := load_and_prepare_data "BaseFuncionarios.xlsx" in
  if negb success || empty df then Ok None
  else
    df_filtered ← sidebar_filters w df;
    k ← kpis df_filtered;
    df_filtered ← charts df_filtered;
    Ok (Some (table_and_downloads k df_filtered)).

End App.

(** ** Whole salaries

    The slider is bounded by [int(min)] and [int(max)]; the bounds are the
    extremes themselves when the salaries are whole numbers. *)

Definition is_whole (q : Q) : bool := Qeq_bool q (inject_Z (int_of q)).


Definition number_or_missing (c : cell) : bool :=
  match c with
  | NaN | Num _ => true
  | Str _ | Ts _ => false
  end.

(** ** Literal search strings *)

(** A search string without any character that a regular expression reads
    as an operator. *)
Definition literal (s : string) : bool :=
  string_forallb (fun a => negb (is_meta a)) s.

(** [name], compared without regard to case, contains [s]: once both are
    lower-cased, [s] sits somewhere inside [name]. *)
Definition icontains (s name : string) : Prop :=
  exists pre post : string,
    str_lower name = String.append pre (String.append (str_lower s) post).

(** ** Gender values *)

Definition m_f_or_missing (c : cell) : Prop :=
  c = Str "M" \/ c = Str "F" \/ c = NaN.

(** The text is the one character [x] between blanks, if any. *)
Definition padded (x : ascii) (text : string) : Prop :=
  exists pre post : string,
    text = String.append pre (String x post) /\
    string_forallb is_space pre = true /\ string_forallb is_space post = true.

(** ** The salaries of a view, row by row *)

Definition salary (r : row) : Q :=
  match at_col r "Salario_Base" with
  | Num q => q
  | _ => 0
  end.

Definition total_salary (rs : list row) : Q :=
  foldr (fun r acc => salary r + acc)%Q 0%Q rs.

(** ** Labels made of word characters *)

Definition word_labels (df : DataFrame) : Prop :=
  Forall (fun l => string_forallb is_word l = true) (labels df).

(** ** The age buckets as a table *)

(** The edges and labels of [pd.cut]: each bucket starts at its first edge
    and stops short of its second. *)
Definition age_buckets : list (Z * Z * string) :=
  [(0, 18, "0-18"); (18, 25, "19-25"); (25, 35, "26-35"); (35, 45, "36-45");
   (45, 55, "46-55"); (55, 65, "56-65"); (65, 100, "65+")]%string.

(** ** The ends of the salary slider *)

(** [min_sal] and [max_sal] as the sidebar computes them: [None] when there
    is no salary to bound a slider. *)
Definition salary_ends (df_filtered : DataFrame) : result (option (Z * Z)) :=
  if has_col "Salario_Base" df_filtered then
    let col := (fun r => at_col r "Salario_Base") <$> rows df_filtered in
    match dropna col with
    | [] => Ok None
    | _ :: _ =>
        qs ← numbers col;
        match qs with
        | [] => Ok None
        | q :: qs' => Ok (Some (int_of (foldr qmin q qs'), int_of (foldr qmax q qs')))
        end
    end
  else Ok None.

(** The ends of the slider once it is shown: the widget has accepted
    them. *)
Definition slider_bounds (df_filtered : DataFrame) : result (option (Z * Z)) :=
  ends ← salary_ends df_filtered;
  match ends with
  | None => Ok None
  | Some (min_sal, max_sal) => Some <$> slider min_sal max_sal None
  end.

(** ** The options of a select box *)

(** Two cells that [unique] takes for one value: missing cells are one
    value, anything else compares as [==] does. *)
Definition same_value (c v : cell) : bool :=
  match c, v with
  | NaN, NaN => true
  | _, _ => cell_eqb c v
  end.

(** [Series.unique().tolist()]: the distinct values, each at its first
    appearance. *)
Fixpoint unique (cs : list cell) : list cell :=
  match cs with
  | [] => []
  | c :: t => c :: List.filter (fun v => negb (same_value v c)) (unique t)
  end.

(** [["Todos"] + df_filtered[col].unique().tolist()]; no select box without
    the column. *)
Definition options (col : string) (df_filtered : DataFrame) : option (list cell) :=
  if has_col col df_filtered
  then Some (Str "Todos" :: unique ((fun r => at_col r col) <$> rows df_filtered))
  else None.

(** ** What the chart section leaves alone *)

(** What one block of the chart section may do to the frame: nothing, or
    write one of the three chart columns. *)
Definition chart_step (df out : DataFrame) : Prop :=
  out = df \/
  exists col d f, col ∈ transient_cols /\ out = assign col d f df.

Definition same_but_charts (df out : DataFrame) : Prop :=
  List.filter (fun l => negb (bool_decide (l ∈ transient_cols))) (labels out)
  = List.filter (fun l => negb (bool_decide (l ∈ transient_cols))) (labels df) /\
  exists g : row -> row,
    rows out = g <$> rows df /\
    forall r x, x ∉ transient_cols -> at_col (g r) x = at_col r x.


(** ** Columns of numbers *)


(** ** The text of an amount *)

(** [s.replace(a, b)] for two single characters. *)
Definition str_replace (a b : ascii) (s : string) : string :=
  string_map (fun c => if Ascii.eqb c a then b else c) s.

(** [.replace(",", "X").replace(".", ",").replace("X", ".")] *)
Definition swap_separators (s : string) : string :=
  str_replace "X" "." (str_replace "." "," (str_replace "," "X" s)).

(** The text [brl] returns for a number, [format_2f] being what
    [f"{x:,.2f}"] prints: digits grouped by commas, a dot before the two
    decimals. *)
Definition brl_text (format_2f : Q -> string) (x : Q) : string :=
  swap_separators (String.append "R$ " (format_2f x)).

(** A comma becomes a dot and a dot a comma. *)
Definition swap_char (c : ascii) : ascii :=
  if Ascii.eqb c "," then "."%char
  else if Ascii.eqb c "." then ","%char
  else c.

(** ** Amounts *)



(** * Sample data

    A small sheet and the library stand-ins used to run the model on it:
    labels already in ASCII (so the Unicode step has nothing to do), a date
    parser and an engine that accept nothing, and one file on disk. *)

Local Open Scope string_scope.

Definition day (d : Z) : cell := Ts (d * ns_per_day).

Definition sheet_columns : list (string * dtype) :=
  [("Nome Completo", object); ("Data de Nascimento", datetime64);
   ("Data de Contratacao", datetime64); ("Data de Demissao", datetime64);
   ("Sexo", object); ("Area", object); ("Nivel", object); ("Cargo", object);
   ("Salario Base", float64)].

Definition sheet_row (nome : string) (nasc contr dem : cell) (sexo area : string)
    (sal : cell) : row :=
  list_to_map
    [("Nome Completo", Str nome); ("Data de Nascimento", nasc);
     ("Data de Contratacao", contr); ("Data de Demissao", dem);
     ("Sexo", Str sexo); ("Area", Str area); ("Nivel", Str "Pleno");
     ("Cargo", Str "Analista"); ("Salario Base", sal)].

Definition ana : row :=
  sheet_row "Ana Silva" (day 7305) (day 18322) NaN " m " "Vendas" (Num (5000 # 1)).
Definition mariana : row :=
  sheet_row "MARIANA Costa" (day 9000) (day 20100) (day 20200) "Fem" "Vendas"
            (Num (14001 # 2)).
Definition bruno : row :=
  sheet_row "Bruno" (day 10000) (day 19000) NaN "f" "Ops" NaN.

Definition sheet : DataFrame := mkFrame sheet_columns [ana; mariana; bruno].

(** The same sheet with one birth date left blank. *)
Definition carla : row :=
  sheet_row "Carla" NaN (day 19500) NaN "F" "Ops" (Num (6000 # 1)).
Definition sheet_blank_birth : DataFrame := mkFrame sheet_columns [ana; carla].

(** The same sheet without the hire-date column. *)
Definition sheet_no_hire : DataFrame :=
  drop_columns ["Data de Contratacao"] sheet.

Definition plain_fold (s : string) : string := s.
Definition no_dates (c : cell) : option Z := None.
Definition plain_str (c : cell) : string := "".
Definition no_engine (pat : string) : option (string -> bool) := None.
Definition one_file (df : DataFrame) (path : string) : option (result DataFrame) :=
  if bool_decide (path = "BaseFuncionarios.xlsx") then Some (Ok df) else None.
Definition a_day : Z := 20328 * ns_per_day.

(** A view as the filters see it: names, departments, salaries, status. *)
Definition view_columns : list (string * dtype) :=
  [("Nome_Completo", object); ("Area", object); ("Salario_Base", float64);
   ("Status", object)].

Definition view_row (nome area : string) (sal : cell) (status : string) : row :=
  list_to_map
    [("Nome_Completo", Str nome); ("Area", Str area); ("Salario_Base", sal);
     ("Status", Str status)].

Definition v_ana : row := view_row "Ana Silva" "Vendas" (Num (5000 # 1)) "Ativo".
Definition v_bruno : row := view_row "Bruno" "Vendas" NaN "Desligado".
Definition v_carla : row := view_row "Carla" "Ops" (Num (6000 # 1)) "Ativo".

Definition staff : DataFrame := mkFrame view_columns [v_ana; v_bruno; v_carla].

(** Every widget at its first option: "Todos" in each select box, the
    slider at its two ends, an empty search box. *)
Definition todos : Sidebar :=
  mkSidebar (Str "Todos") (Str "Todos") (Str "Todos") None (Str "Todos") "".

(** ** The model run on the sample *)

Definition run_load (df : DataFrame) : DataFrame * bool :=
  load_and_prepare_data plain_fold no_dates plain_str (one_file df) a_day
    "BaseFuncionarios.xlsx".

(** The sample sheet once loaded, and its rows by position. *)
Definition loaded : DataFrame := (run_load sheet).1.
Definition loaded_row (i : nat) : row := default ∅ (rows loaded !! i).

(** The sheet with a blank birth date, relabelled; its second row is
    Carla's. *)
Definition relabelled_blank_birth : DataFrame :=
  normalize_columns plain_fold sheet_blank_birth.
Definition carla_relabelled : row := default ∅ (rows relabelled_blank_birth !! 1%nat).

(** The view of the two employees whose salary is known. *)
Definition paid_staff : DataFrame := mkFrame view_columns [v_ana; v_carla].

(** The sheet without its hire dates, once loaded. *)
Definition loaded_no_hire : DataFrame := (run_load sheet_no_hire).1.

(** [staff] without its names. *)
Definition staff_no_name : DataFrame := drop_columns ["Nome_Completo"] staff.

(** The script on a sheet, reduced to what is read off the page: the
    header of the spreadsheet download, the header of the table shown, and
    the payroll card. *)
Definition page_headers (p : Page)
  : list string * option (list string) * kpi_text :=
  ((excel_buffer p).1, labels <$> df_display p, folha_card (cards p)).

Definition run_app (re : string -> option (string -> bool)) (df : DataFrame)
  : result (option (list string * option (list string) * kpi_text)) :=
  match app plain_fold no_dates plain_str re (one_file df) a_day todos with
  | Ok page => Ok (page_headers <$> page)
  | Raise e => Raise e
  end.

Definition blank_cards : KPIs := mkKPIs 0 0 0 0 0 0 NA NA NA.

(** The three records of the worked example: two in "Sales", one of them
    terminated, and one in "Ops". *)
Definition trio : DataFrame :=
  mkFrame view_columns
    [view_row "Ana" "Sales" (Num (5000 # 1)) "Ativo";
     view_row "Bruno" "Sales" (Num (7000 # 1)) "Desligado";
     view_row "Carla" "Ops" (Num (6000 # 1)) "Ativo"].

(** A view reduced to its names and its mean salary. *)
Definition names_and_mean (view : result DataFrame) : result (list cell * cell) :=
  view ≫= fun v =>
    cs ← getitem "Salario_Base" v;
    m ← series_mean cs;
    Ok ((fun r => at_col r "Nome_Completo") <$> rows v, m).

(** ** More views of the sample *)

(** A table with one employee, and so with one salary. *)
Definition solo : DataFrame := mkFrame view_columns [v_carla].

(** "JOSE" in capitals with its E acute (201), and "Jose Lima" with its e
    acute (233). *)
Definition jose_capitals : string := String.append "JOS" (String "201" "").
Definition jose_lima : string := String.append "Jos" (String "233" " Lima").

(** The value of a step that did not raise. *)
Definition value_or {A : Type} (d : A) (m : result A) : A :=
  match m with
  | Ok a => a
  | Raise _ => d
  end.

(** The loaded sample behind the widgets at their first option, its
    cards, and what the chart section makes of the loaded sample. *)
Definition loaded_view : DataFrame :=
  value_or empty_frame (sidebar_filters no_engine todos loaded).
Definition loaded_cards : KPIs := value_or blank_cards (kpis a_day loaded_view).
Definition charted : DataFrame := value_or empty_frame (charts loaded).


(** [staff] with its total monthly cost. *)
Definition costed : DataFrame := value_or empty_frame (add_custo_total staff).

Local Close Scope string_scope.

(** * Properties *)

(** ** Frames *)

Lemma filter_all {A : Type} (p : A -> bool) (l : list A) :
  Forall (fun x => p x = true) l -> List.filter p l = l.
Proof.
  induction 1 as [|x l Hx _ IH]; simpl; [done|].
  by rewrite Hx, IH.
Qed.

Lemma filter_filter {A : Type} (p q : A -> bool) (l : list A) :
  List.filter p (List.filter q l) = List.filter (fun x => q x && p x) l.
Proof.
  induction l as [|x l IH]; simpl; [done|].
  destruct (q x); simpl; [|done].
  destruct (p x); by rewrite IH.
Qed.

Lemma filter_ext_bool {A : Type} (p q : A -> bool) (l : list A) :
  (forall x, p x = q x) -> List.filter p l = List.filter q l.
Proof.
  intros E. induction l as [|x l IH]; simpl; [done|].
  by rewrite E, IH.
Qed.

Lemma elem_of_filter_bool {A : Type} (p : A -> bool) (l : list A) (x : A) :
  x ∈ List.filter p l <-> x ∈ l /\ p x = true.
Proof. rewrite !list_elem_of_In. apply filter_In. Qed.

Lemma select_rows_columns mask df : columns (select_rows mask df) = columns df.
Proof. done. Qed.


Lemma select_select p q df :
  select_rows p (select_rows q df) = select_rows (fun r => q r && p r) df.
Proof. unfold select_rows; simpl. by rewrite filter_filter. Qed.

Lemma select_rows_comm p q df :
  select_rows p (select_rows q df) = select_rows q (select_rows p df).
Proof.
  rewrite !select_select. unfold select_rows. f_equal.
  apply filter_ext_bool. intros r. apply andb_comm.
Qed.

Lemma select_rows_idem p df : select_rows p (select_rows p df) = select_rows p df.
Proof.
  rewrite select_select. unfold select_rows. f_equal.
  apply filter_ext_bool. intros r. by destruct (p r).
Qed.

Lemma select_rows_all p df :
  Forall (fun r => p r = true) (rows df) -> select_rows p df = df.
Proof.
  intros H. destruct df as [cs rs]. unfold select_rows; simpl in *.
  by rewrite filter_all.
Qed.

(** A select-box filter is one selection whose mask depends on the columns
    only. *)
Definition equal_mask (col : string) (selected : cell) (df : DataFrame) (r : row)
  : bool :=
  if has_col col df && not_todos selected
  then cell_eqb (at_col r col) selected else true.

Lemma filter_equal_select col selected df :
  filter_equal col selected df = select_rows (equal_mask col selected df) df.
Proof.
  unfold filter_equal, equal_mask.
  destruct (has_col col df), (not_todos selected); simpl; try done;
    symmetry; apply select_rows_all, Forall_forall; done.
Qed.

Lemma equal_mask_select col selected p df :
  equal_mask col selected (select_rows p df) = equal_mask col selected df.
Proof. done. Qed.

Lemma filter_equal_comm c1 v1 c2 v2 df :
  filter_equal c1 v1 (filter_equal c2 v2 df) = filter_equal c2 v2 (filter_equal c1 v1 df).
Proof.
  rewrite !filter_equal_select, !equal_mask_select. apply select_rows_comm.
Qed.

Lemma filter_equal_idem col v df :
  filter_equal col v (filter_equal col v df) = filter_equal col v df.
Proof.
  rewrite !filter_equal_select, !equal_mask_select. apply select_rows_idem.
Qed.

Lemma filter_equal_rows col v df r :
  r ∈ rows (filter_equal col v df) -> r ∈ rows df.
Proof.
  rewrite filter_equal_select. simpl. rewrite elem_of_filter_bool. tauto.
Qed.


(** C3. The department, level and role filters give the same view in each
    of the six orders in which they can be applied, and applying one of them
    a second time changes nothing, whatever the table and the three
    selections. *)
Theorem equality_filters_commute_and_are_idempotent
    (df : DataFrame) (area nivel cargo : cell) :
  let a := filter_area area in
  let n := filter_nivel nivel in
  let c := filter_cargo cargo in
  (c (n (a df)) = a (n (c df)) /\
   c (n (a df)) = n (c (a df)) /\
   c (n (a df)) = a (c (n df)) /\
   c (n (a df)) = n (a (c df)) /\
   c (n (a df)) = c (a (n df))) /\
  (a (a df) = a df /\ n (n df) = n df /\ c (c df) = c df) /\
  (forall view, view = c (n (a df)) ->
     a view = view /\ n view = view /\ c view = view).
Proof.
  intros a n c.
  assert (Hna : forall d, n (a d) = a (n d)) by (intros; apply filter_equal_comm).
  assert (Hca : forall d, c (a d) = a (c d)) by (intros; apply filter_equal_comm).
  assert (Hcn : forall d, c (n d) = n (c d)) by (intros; apply filter_equal_comm).
  assert (Ia : forall d, a (a d) = a d) by (intros; apply filter_equal_idem).
  assert (In_ : forall d, n (n d) = n d) by (intros; apply filter_equal_idem).
  assert (Ic : forall d, c (c d) = c d) by (intros; apply filter_equal_idem).
  split; [|split].
  - repeat split.
    + by rewrite Hna, Hca, Hcn.
    + by rewrite Hcn.
    + by rewrite Hna, Hca.
    + by rewrite Hcn, Hca.
    + by rewrite Hna.
  - auto.
  - intros view ->. repeat split.
    + by rewrite <- Hca, <- Hna, Ia.
    + by rewrite <- Hcn, In_.
    + apply Ic.
Qed.

Lemma labels_set_dtype col d cs :
  (set_dtype col d cs).*1 = if bool_decide (col ∈ cs.*1) then cs.*1 else cs.*1 ++ [col].
Proof.
  unfold set_dtype. case_bool_decide as H.
  - rewrite <- list_fmap_compose. apply list_fmap_ext.
    intros i [c e] _; simpl. by case_bool_decide; simplify_eq/=.
  - by rewrite fmap_app.
Qed.

Lemma has_col_assign x col d f df :
  has_col x (assign col d f df) = has_col x df || bool_decide (x = col).
Proof.
  unfold has_col, labels, assign; simpl. rewrite labels_set_dtype.
  apply eq_true_iff_eq. rewrite orb_true_iff, !bool_decide_eq_true.
  case_bool_decide as H.
  - split; [tauto|]. intros [?| ->]; done.
  - rewrite elem_of_app, list_elem_of_singleton. done.
Qed.

Lemma at_col_insert (r : row) col v x :
  at_col (<[col := v]> r) x = if bool_decide (col = x) then v else at_col r x.
Proof.
  unfold at_col. case_bool_decide as H.
  - subst. by rewrite lookup_insert_eq.
  - by rewrite lookup_insert_ne.
Qed.

Lemma elem_of_rows_assign col d f df r :
  r ∈ rows (assign col d f df) <-> exists r0, r0 ∈ rows df /\ r = <[col := f r0]> r0.
Proof.
  unfold assign; simpl. rewrite list_elem_of_fmap.
  split; intros (r0 & H1 & H2); eauto.
Qed.

Lemma empty_frame_empty : empty empty_frame = true.
Proof. done. Qed.

(** ** Series of numbers *)


Lemma numbers_ok cs :
  Forall (fun c => number_or_missing c = true) cs ->
  exists qs, numbers cs = Ok qs /\ forall x, x ∈ qs <-> Num x ∈ cs.
Proof.
  induction 1 as [|c cs Hc _ (qs & E & M)]; simpl.
  - exists []. split; [done|]. intros x. by rewrite !elem_of_nil.
  - destruct c; try done.
    + exists qs. split; [done|]. intros x. rewrite elem_of_cons, M.
      split; [auto|]. intros [[=]|]; done.
    + exists (q :: qs). rewrite E. split; [done|]. intros x.
      rewrite !elem_of_cons, M.
      split; [intros [->|]; auto | intros [[= ->]|]; auto].
Qed.

Lemma qmin_foldr q qs :
  foldr qmin q qs ∈ q :: qs /\ forall x, x ∈ q :: qs -> (foldr qmin q qs <= x)%Q.
Proof.
  induction qs as [|y qs [IHm IHle]]; simpl.
  - split; [left|]. intros x ->%list_elem_of_singleton. apply Qle_refl.
  - unfold qmin at 1 3. destruct (Qle_bool y (foldr qmin q qs)) eqn:E.
    + apply Qle_bool_iff in E. split; [right; left|].
      intros x Hx. apply elem_of_cons in Hx as [->|Hx].
      * eapply Qle_trans; [exact E|]. apply IHle. left.
      * apply elem_of_cons in Hx as [->|Hx]; [apply Qle_refl|].
        eapply Qle_trans; [exact E|]. apply IHle. by right.
    + assert (foldr qmin q qs <= y)%Q.
      { apply Qlt_le_weak, Qnot_le_lt. intros H%Qle_bool_iff. congruence. }
      split.
      * apply elem_of_cons in IHm as [->|]; [left|right; right]; done.
      * intros x Hx. apply elem_of_cons in Hx as [->|Hx]; [apply IHle; left|].
        apply elem_of_cons in Hx as [->|Hx]; [done|]. apply IHle. by right.
Qed.

Lemma qmax_foldr q qs :
  foldr qmax q qs ∈ q :: qs /\ forall x, x ∈ q :: qs -> (x <= foldr qmax q qs)%Q.
Proof.
  induction qs as [|y qs [IHm IHle]]; simpl.
  - split; [left|]. intros x ->%list_elem_of_singleton. apply Qle_refl.
  - unfold qmax at 1 3. destruct (Qle_bool y (foldr qmax q qs)) eqn:E.
    + apply Qle_bool_iff in E. split.
      * apply elem_of_cons in IHm as [->|]; [left|right; right]; done.
      * intros x Hx. apply elem_of_cons in Hx as [->|Hx]; [apply IHle; left|].
        apply elem_of_cons in Hx as [->|Hx]; [done|]. apply IHle. by right.
    + assert (foldr qmax q qs <= y)%Q.
      { apply Qlt_le_weak, Qnot_le_lt. intros H%Qle_bool_iff. congruence. }
      split; [right; left|].
      intros x Hx. apply elem_of_cons in Hx as [->|Hx].
      * eapply Qle_trans; [|exact H]. apply IHle. left.
      * apply elem_of_cons in Hx as [->|Hx]; [apply Qle_refl|].
        eapply Qle_trans; [|exact H]. apply IHle. by right.
Qed.

Lemma is_whole_inject q : is_whole q = true -> (inject_Z (int_of q) == q)%Q.
Proof. intros H%Qeq_bool_iff. by symmetry. Qed.

(** ** The filters *)

Section Filters.

Variable re_compile : string -> option (string -> bool).

#[local] Abbreviation filters := (sidebar_filters re_compile).
#[local] Abbreviation nome := (filter_nome re_compile).


Lemma select_rows_true df : select_rows (fun _ => true) df = df.
Proof. apply select_rows_all, Forall_forall. done. Qed.

Lemma select_rows_ext_in p q df :
  (forall r, r ∈ rows df -> p r = q r) -> select_rows p df = select_rows q df.
Proof.
  intros H. unfold select_rows. f_equal. apply filter_ext_in.
  intros r Hr. apply H. by apply list_elem_of_In.
Qed.

Lemma filter_salario_select choice df out :
  filter_salario choice df = Ok out -> exists mask, out = select_rows mask df.
Proof.
  unfold filter_salario.
  assert (I : exists mask, df = select_rows mask df).
  { exists (fun _ => true). by rewrite select_rows_true. }
  destruct (has_col _ df); [|by intros [= <-]].
  destruct (dropna _); [by intros [= <-]|].
  destruct (numbers _) as [[|q qs]|e]; simpl; [by intros [= <-]| |done].
  destruct (slider _ _ choice) as [[lo hi]|]; simpl; [|done].
  intros [= <-]. eauto.
Qed.

Lemma filter_salario_ends choice df :
  filter_salario choice df =
  salary_ends df ≫= fun ends =>
    match ends with
    | None => Ok df
    | Some (min_sal, max_sal) =>
        slider min_sal max_sal choice ≫= fun picked =>
          let '(lo, hi) := picked in
          Ok (select_rows (fun r => in_sal_range lo hi (at_col r "Salario_Base")) df)
    end.
Proof.
  unfold filter_salario, salary_ends.
  destruct (has_col _ df); [|done].
  destruct (dropna _); [done|].
  destruct (numbers _) as [[|q qs]|]; done.
Qed.

Lemma slider_ok min_value max_value choice picked :
  slider min_value max_value choice = Ok picked <->
  min_value < max_value /\ - max_safe_integer <= min_value /\
  max_value <= max_safe_integer /\
  picked = default (min_value, max_value) choice.
Proof.
  unfold slider.
  destruct (min_value <? max_value) eqn:E1; simpl;
    [apply Z.ltb_lt in E1|apply Z.ltb_ge in E1; split; [done|lia]].
  destruct (- max_safe_integer <=? min_value) eqn:E2; simpl;
    [apply Z.leb_le in E2|apply Z.leb_gt in E2; split; [done|lia]].
  destruct (max_value <=? max_safe_integer) eqn:E3; simpl;
    [apply Z.leb_le in E3|apply Z.leb_gt in E3; split; [done|lia]].
  split; [by intros [= <-]|by intros (_ & _ & _ & ->)].
Qed.

Lemma slider_raise min_value max_value choice e :
  slider min_value max_value choice = Raise e <->
  e = StreamlitAPIException /\
  (max_value <= min_value \/ min_value < - max_safe_integer \/
   max_safe_integer < max_value).
Proof.
  unfold slider.
  destruct (min_value <? max_value) eqn:E1; simpl;
    [apply Z.ltb_lt in E1|apply Z.ltb_ge in E1; split; [intros [= <-]; auto|by intros [-> _]]].
  destruct (- max_safe_integer <=? min_value) eqn:E2; simpl;
    [apply Z.leb_le in E2|apply Z.leb_gt in E2; split; [intros [= <-]; auto|by intros [-> _]]].
  destruct (max_value <=? max_safe_integer) eqn:E3; simpl;
    [apply Z.leb_le in E3|apply Z.leb_gt in E3; split; [intros [= <-]; auto|by intros [-> _]]].
  split; [done|]. intros [_ H]. lia.
Qed.


Lemma filter_nome_select query df out :
  nome query df = Ok out -> exists mask, out = select_rows mask df.
Proof.
  unfold filter_nome. case_bool_decide.
  - intros [= <-]. exists (fun _ => true). by rewrite select_rows_true.
  - destruct (has_col _ df); [|done].
    destruct (dtype_of _ df) as [[]|]; try done.
    destruct (re_search _ query); [|done]. intros [= <-]. eauto.
Qed.

(** The view is always a selection of rows of the table, under the same
    columns. *)
Lemma sidebar_filters_select w df out :
  filters w df = Ok out -> exists mask, out = select_rows mask df.
Proof.
  unfold sidebar_filters, filter_area, filter_nivel, filter_cargo, filter_status.
  rewrite !filter_equal_select, !equal_mask_select, !select_select.
  destruct (filter_salario _ _) as [d1|e] eqn:E1; simpl; [|done].
  apply filter_salario_select in E1 as [m1 ->].
  rewrite !filter_equal_select, !equal_mask_select, !select_select.
  intros [m2 ->]%filter_nome_select. rewrite select_select. eauto.
Qed.

Lemma sidebar_filters_rows w df out r :
  filters w df = Ok out -> r ∈ rows out -> r ∈ rows df.
Proof.
  intros [m ->]%sidebar_filters_select. simpl.
  rewrite elem_of_filter_bool. tauto.
Qed.

Lemma sidebar_filters_columns w df out :
  filters w df = Ok out -> columns out = columns df.
Proof. by intros [m ->]%sidebar_filters_select. Qed.

Lemma in_sal_range_whole lo hi q :
  is_whole lo = true -> is_whole hi = true -> (lo <= q)%Q -> (q <= hi)%Q ->
  in_sal_range (int_of lo) (int_of hi) (Num q) = true.
Proof.
  intros Hlo Hhi L H. simpl. apply andb_true_iff. split; apply Qle_bool_iff.
  - by rewrite is_whole_inject.
  - by rewrite is_whole_inject.
Qed.





Lemma literal_no_operator s :
  literal s = true -> string_forallb (fun a => negb (is_operator a)) s = true.
Proof.
  unfold literal. induction s as [|a s IH]; simpl; [done|].
  rewrite !andb_true_iff. intros [Ha Hs]. split; [|auto].
  unfold is_meta in Ha. by destruct (Ascii.eqb a "."), (is_operator a).
Qed.

Lemma unit_match_literal p c :
  is_meta p = false ->
  unit_match p c = true <-> lower_char c = lower_char p.
Proof.
  unfold is_meta, unit_match. destruct (Ascii.eqb p "."); [done|]. intros _.
  rewrite Ascii.eqb_eq. split; congruence.
Qed.

Lemma match_here_literal pat text :
  literal pat = true ->
  match_here pat text = true <->
  exists post, str_lower text = String.append (str_lower pat) post.
Proof.
  unfold literal. revert text. induction pat as [|p pat IH]; intros text; simpl.
  - intros _. split; [eauto|done].
  - rewrite andb_true_iff, negb_true_iff. intros [Hp Hpat].
    destruct text as [|c text]; simpl.
    + split; [done|]. intros [post [=]].
    + rewrite andb_true_iff, unit_match_literal, IH by done.
      split.
      * intros [Ec [post Et]]. exists post.
        change (String (lower_char c) (str_lower text)
                = String (lower_char p) (String.append (str_lower pat) post)).
        by rewrite Ec, Et.
      * intros [post E].
        change (String (lower_char c) (str_lower text)
                = String (lower_char p) (String.append (str_lower pat) post)) in E.
        injection E as Ec Et. eauto.
Qed.

Lemma search_literal pat text :
  literal pat = true -> search pat text = true <-> icontains pat text.
Proof.
  intros L. unfold icontains. induction text as [|c text IH]; simpl.
  - rewrite orb_false_r, match_here_literal by done. split.
    + intros [post E]. exists EmptyString, post. done.
    + intros (pre & post & E). destruct pre; simpl in E; [eauto|done].
  - rewrite orb_true_iff, IH, match_here_literal by done.
    change (str_lower (String c text)) with (String (lower_char c) (str_lower text)).
    split.
    + intros [[post E]|(pre & post & E)].
      * exists EmptyString, post. done.
      * exists (String (lower_char c) pre), post. simpl. by rewrite E.
    + intros (pre & post & E). destruct pre as [|a pre]; simpl in E.
      * left. eauto.
      * right. injection E as _ E. eauto.
Qed.

(** C6 (as amended). For a search string that is not empty and holds no
    operator of a regular expression, on a table whose name column holds
    text, the search keeps a row exactly when its name is a text that,
    compared without regard to case, contains the string, the accented
    letters of Latin-1 being letters like the others; a row whose name is
    missing is never kept.  So "ana" finds "Ana Silva" and "MARIANA Costa",
    and "JOSE" with its acute accent finds "Jose Lima" with his. *)
Theorem name_search_keeps_literal_matches (query : string) (df : DataFrame) :
  query ≠ EmptyString ->
  literal query = true ->
  has_col "Nome_Completo" df = true ->
  dtype_of "Nome_Completo" df = Some object ->
  (exists mask,
     nome query df = Ok (select_rows mask df) /\
     (forall r, mask r = true <->
        exists name, at_col r "Nome_Completo" = Str name /\ icontains query name) /\
     (forall r, at_col r "Nome_Completo" = NaN -> mask r = false)) /\
  (exists found,
     re_search re_compile "ana" = Some found /\
     found "Ana Silva"%string = true /\ found "MARIANA Costa"%string = true) /\
  (exists found,
     re_search re_compile jose_capitals = Some found /\
     found jose_lima = true /\ icontains jose_capitals jose_lima).
Proof.
  intros Hq L Hc Hd. split.
  - exists (fun r => contains (search query) (at_col r "Nome_Completo")).
    split; [|split].
    + unfold filter_nome, re_search.
      rewrite bool_decide_eq_false_2, Hc, Hd by done.
      by rewrite literal_no_operator.
    + intros r. destruct (at_col r "Nome_Completo") as [|name| |]; simpl.
      * split; [done|]. by intros (? & [=] & _).
      * rewrite search_literal by done. split; [eauto|]. by intros (? & [= <-] & ?).
      * split; [done|]. by intros (? & [=] & _).
      * split; [done|]. by intros (? & [=] & _).
    + by intros r ->.
  - split.
    + exists (search "ana"). done.
    + exists (search jose_capitals). split; [done|]. split; [done|].
      by apply search_literal.
Qed.

End Filters.

(** ** Blanks and capitals *)

Lemma upper_char_space a : is_space (upper_char a) = is_space a.
Proof. destruct a as [[] [] [] [] [] [] [] []]; vm_compute; reflexivity. Qed.

Lemma upper_char_M a :
  Ascii.eqb (upper_char a) "M" = Ascii.eqb a "m" || Ascii.eqb a "M".
Proof. destruct a as [[] [] [] [] [] [] [] []]; vm_compute; reflexivity. Qed.

Lemma upper_char_F a :
  Ascii.eqb (upper_char a) "F" = Ascii.eqb a "f" || Ascii.eqb a "F".
Proof. destruct a as [[] [] [] [] [] [] [] []]; vm_compute; reflexivity. Qed.

Lemma str_upper_blank s :
  string_forallb is_space (str_upper s) = string_forallb is_space s.
Proof.
  unfold str_upper. induction s as [|a s IH]; simpl; [done|].
  by rewrite upper_char_space, IH.
Qed.

Lemma str_upper_app s t :
  str_upper (String.append s t) = String.append (str_upper s) (str_upper t).
Proof.
  unfold str_upper. induction s as [|a s IH]; simpl; [done|]. by rewrite IH.
Qed.

Lemma str_upper_split s pre x post :
  str_upper s = String.append pre (String x post) ->
  exists pre0 x0 post0,
    s = String.append pre0 (String x0 post0) /\
    str_upper pre0 = pre /\ upper_char x0 = x /\ str_upper post0 = post.
Proof.
  unfold str_upper.
  revert s. induction pre as [|p pre IH]; intros [|a s]; simpl; try done.
  - intros [= <- <-]. by exists EmptyString, a, s.
  - intros [= <- E]. destruct (IH s E) as (pre0 & x0 & post0 & -> & <- & <- & <-).
    by exists (String a pre0), x0, post0.
Qed.

Lemma rstrip_blank s : rstrip s = EmptyString <-> string_forallb is_space s = true.
Proof.
  induction s as [|a s IH]; simpl; [done|].
  destruct (rstrip s) as [|b t].
  - rewrite (proj1 IH eq_refl), andb_true_r. by destruct (is_space a).
  - split; [done|]. intros [_ H]%andb_true_iff. by apply IH in H.
Qed.

Lemma rstrip_one s x :
  rstrip s = String x EmptyString <->
  exists post, s = String x post /\ is_space x = false /\
               string_forallb is_space post = true.
Proof.
  destruct s as [|a s]; simpl.
  - split; [done|]. by intros (? & [=] & _).
  - destruct (rstrip s) as [|b t] eqn:E.
    + apply rstrip_blank in E. destruct (is_space a) eqn:Ea.
      * split; [done|]. intros (post & [= <- <-] & H & _). congruence.
      * split.
        -- intros [= <-]. eauto.
        -- by intros (post & [= <- <-] & _).
    + split; [done|]. intros (post & [= <- <-] & _ & H).
      apply rstrip_blank in H. congruence.
Qed.

Lemma lstrip_blank_prefix pre x post :
  string_forallb is_space pre = true -> is_space x = false ->
  lstrip (String.append pre (String x post)) = String x post.
Proof.
  intros Hp Hx. induction pre as [|p pre IH]; simpl in *.
  - by rewrite Hx.
  - apply andb_true_iff in Hp as [-> Hp]. auto.
Qed.

Lemma lstrip_split s :
  exists pre, s = String.append pre (lstrip s) /\
              string_forallb is_space pre = true.
Proof.
  induction s as [|a s (pre & E & H)]; simpl.
  - by exists EmptyString.
  - destruct (is_space a) eqn:Ea.
    + exists (String a pre). split; [|simpl; by rewrite Ea].
      change (String a s = String a (String.append pre (lstrip s))). by f_equal.
    + by exists EmptyString.
Qed.

(** What is left of a text once stripped is the one character [x] exactly
    when the text is [x] between blanks, [x] not being one. *)
Lemma str_strip_one s x :
  str_strip s = String x EmptyString <-> padded x s /\ is_space x = false.
Proof.
  unfold str_strip, padded. split.
  - intros (post & E & Hx & Hp)%rstrip_one.
    destruct (lstrip_split s) as (pre & Es & Hpre). rewrite E in Es.
    split; [|done]. by exists pre, post.
  - intros [(pre & post & -> & Hpre & Hpost) Hx].
    rewrite lstrip_blank_prefix by done. apply rstrip_one. eauto.
Qed.

Lemma stripped_capital s (x X : ascii) :
  is_space X = false ->
  (forall a, Ascii.eqb (upper_char a) X = Ascii.eqb a x || Ascii.eqb a X) ->
  str_strip (str_upper s) = String X EmptyString <-> padded x s \/ padded X s.
Proof.
  intros HX HU. rewrite str_strip_one. unfold padded. split.
  - intros [(pre & post & E & Hpre & Hpost) _].
    apply str_upper_split in E as (pre0 & x0 & post0 & -> & <- & E & <-).
    rewrite str_upper_blank in Hpre, Hpost.
    apply Ascii.eqb_eq in E. rewrite HU in E.
    apply orb_true_iff in E as [->%Ascii.eqb_eq| ->%Ascii.eqb_eq];
      [left|right]; by exists pre0, post0.
  - intros H. split; [|done].
    assert (exists a pre post, upper_char a = X /\
              s = String.append pre (String a post) /\
              string_forallb is_space pre = true /\
              string_forallb is_space post = true) as (a & pre & post & Ea & -> & Hp & Hq).
    { destruct H as [(pre & post & -> & ? & ?)|(pre & post & -> & ? & ?)].
      - exists x, pre, post. split; [|done]. apply Ascii.eqb_eq. rewrite HU.
        by rewrite Ascii.eqb_refl.
      - exists X, pre, post. split; [|done]. apply Ascii.eqb_eq. rewrite HU.
        by rewrite Ascii.eqb_refl, orb_true_r. }
    exists (str_upper pre), (str_upper post).
    split; [|by rewrite !str_upper_blank].
    rewrite str_upper_app. f_equal. unfold str_upper. simpl. by rewrite Ea.
Qed.

(** ** The loader *)

Section Loader.

Variable ascii_fold : string -> string.
Variable parse_datetime : cell -> option Z.
Variable str_of_value : cell -> string.
Variable re_compile : string -> option (string -> bool).
Variable read_excel : string -> option (result DataFrame).
Variable today : Z.

#[local] Abbreviation load :=
  (load_and_prepare_data ascii_fold parse_datetime str_of_value read_excel today).
#[local] Abbreviation prep := (prepare ascii_fold parse_datetime str_of_value today).
#[local] Abbreviation sexo_of := (normalize_sexo str_of_value).
#[local] Abbreviation relabel := (normalize_columns ascii_fold).
#[local] Abbreviation dates := (coerce_dates parse_datetime).
#[local] Abbreviation datetime := (to_datetime parse_datetime).

Lemma load_true path df :
  load path = (df, true) <->
  exists raw, read_excel path = Some (Ok raw) /\ prep raw = Ok df.
Proof.
  unfold load_and_prepare_data.
  destruct (read_excel path) as [[raw|e]|]; simpl.
  - destruct (prep raw) as [d|e] eqn:E; split.
    + intros [= ->]. eauto.
    + intros (raw' & [= <-] & H). rewrite E in H. by simplify_eq.
    + intros [=].
    + intros (raw' & [= <-] & H). rewrite E in H. done.
  - split; [intros [=]|]. intros (raw' & [=] & _).
  - split; [intros [=]|]. intros (raw' & [=] & _).
Qed.

Lemma load_false path : (load path).2 = false -> (load path).1 = empty_frame.
Proof.
  unfold load_and_prepare_data.
  destruct (read_excel path) as [[raw|e]|]; simpl; try done.
  destruct (prep raw); simpl; done.
Qed.

Lemma prepare_ok raw df :
  prep raw = Ok df <->
  exists d, add_idade today (dates (relabel raw)) = Ok d /\
            df = sexo_of (add_status d).
Proof.
  unfold prepare.
  destruct (add_idade today (dates (relabel raw))) as [d|e]; simpl; split.
  - intros [= <-]. eauto.
  - intros (d' & [= <-] & ->). done.
  - intros [=].
  - intros (d' & [=] & _).
Qed.

(** C10. A path with no file, a file that cannot be read, and any exception
    while the table is prepared all give the empty table with
    [success = false]; [success = true] comes only with a table that went
    through every step of the preparation. *)
Theorem load_fails_closed (file_path : string) (df : DataFrame) (success : bool) :
  load file_path = (df, success) ->
  (success = false -> df = empty_frame) /\
  (read_excel file_path = None -> df = empty_frame /\ success = false) /\
  (forall e, read_excel file_path = Some (Raise e) ->
             df = empty_frame /\ success = false) /\
  (forall raw e, read_excel file_path = Some (Ok raw) -> prep raw = Raise e ->
                 df = empty_frame /\ success = false) /\
  (success = true ->
   exists raw d, read_excel file_path = Some (Ok raw) /\
                 add_idade today (dates (relabel raw)) = Ok d /\
                 df = sexo_of (add_status d)).
Proof.
  intros H. unfold load_and_prepare_data in H.
  destruct (read_excel file_path) as [[raw|e]|] eqn:R; simpl in H.
  - destruct (prep raw) as [d|e] eqn:P; simplify_eq.
    + repeat split; try done.
      * congruence.
      * congruence.
      * apply prepare_ok in P as (d0 & A & ->). eauto.
    + repeat split; done.
  - simplify_eq. repeat split; done.
  - simplify_eq. repeat split; done.
Qed.

Lemma has_col_add_status x d :
  has_col x (add_status d) = has_col x d || bool_decide (x = "Status"%string).
Proof. unfold add_status. destruct (has_col _ d); apply has_col_assign. Qed.

Lemma elem_of_rows_add_status d r :
  r ∈ rows (add_status d) ->
  exists r0, r0 ∈ rows d /\
    r = <["Status"%string :=
           if has_col "Data_de_Demissao" d && notna (at_col r0 "Data_de_Demissao")
           then Str "Desligado" else Str "Ativo"]> r0.
Proof.
  unfold add_status. destruct (has_col _ d);
    rewrite elem_of_rows_assign; intros (r0 & H & ->); eauto.
Qed.

Lemma has_col_normalize_sexo x d : has_col x (sexo_of d) = has_col x d.
Proof.
  unfold normalize_sexo. destruct (has_col "Sexo" d) eqn:E; [|done].
  rewrite !has_col_assign. case_bool_decide as Hx; [|by rewrite !orb_false_r].
  subst. by rewrite E.
Qed.

Lemma elem_of_rows_normalize_sexo d r :
  r ∈ rows (sexo_of d) ->
  exists r0, r0 ∈ rows d /\
    (forall x, x ≠ "Sexo"%string -> at_col r x = at_col r0 x) /\
    (has_col "Sexo" d = true -> at_col r "Sexo" = gender str_of_value (at_col r0 "Sexo")).
Proof.
  unfold normalize_sexo. destruct (has_col "Sexo" d) eqn:E.
  - rewrite elem_of_rows_assign. intros (r1 & H1 & ->).
    apply elem_of_rows_assign in H1 as (r0 & H0 & ->).
    exists r0. split; [done|]. split.
    + intros x Hx. rewrite !at_col_insert. by rewrite !bool_decide_eq_false_2.
    + intros _. rewrite !at_col_insert. by rewrite !bool_decide_eq_true_2.
  - intros H. exists r. done.
Qed.

(** C4. In a loaded table a row is "Desligado" exactly when the table has
    the termination-date column and the row's termination date is not
    missing; every other row is "Ativo", and so is every row of a table
    without that column. *)
Theorem status_iff_termination_date (file_path : string) (df : DataFrame) (r : row) :
  load file_path = (df, true) ->
  r ∈ rows df ->
  (at_col r "Status" = Str "Desligado" <->
     has_col "Data_de_Demissao" df = true /\ at_col r "Data_de_Demissao" ≠ NaN) /\
  (at_col r "Status" = Str "Desligado" \/ at_col r "Status" = Str "Ativo") /\
  (has_col "Data_de_Demissao" df = false -> at_col r "Status" = Str "Ativo") /\
  has_col "Status" df = true.
Proof.
  clear re_compile.
  intros H Hr. apply load_true in H as (raw & _ & P).
  apply prepare_ok in P as (d & _ & ->).
  apply elem_of_rows_normalize_sexo in Hr as (r1 & Hr1 & Hx & _).
  apply elem_of_rows_add_status in Hr1 as (r0 & Hr0 & ->).
  assert (HS : has_col "Status" (sexo_of (add_status d)) = true).
  { rewrite has_col_normalize_sexo, has_col_add_status. apply orb_true_r. }
  rewrite !Hx by done. rewrite !at_col_insert.
  rewrite has_col_normalize_sexo, has_col_add_status. simpl.
  rewrite orb_false_r.
  destruct (has_col "Data_de_Demissao" d); simpl.
  - destruct (at_col r0 "Data_de_Demissao"); simpl; intuition congruence.
  - intuition congruence.
Qed.

Lemma gender_cases c :
  let x := str_strip (str_upper (astype_str str_of_value c)) in
  (gender str_of_value c = Str "M" <-> x = "M"%string) /\
  (gender str_of_value c = Str "F" <-> x = "F"%string) /\
  (gender str_of_value c = NaN <-> x ≠ "M"%string /\ x ≠ "F"%string) /\
  m_f_or_missing (gender str_of_value c).
Proof.
  intros x. unfold gender, m_or_f, m_f_or_missing. fold x. simpl.
  case_bool_decide as HM; [|case_bool_decide as HF].
  - rewrite HM. repeat split; try done; auto. by intros [? _].
  - rewrite HF. repeat split; try done; auto. by intros [_ ?].
  - repeat split; try done; auto.
Qed.

(** The gender of a cell read off its text: 'M' for an m or an M between
    blanks, 'F' for an f or an F between blanks, nothing otherwise. *)
Lemma gender_of_text c :
  let text := astype_str str_of_value c in
  (gender str_of_value c = Str "M" <-> padded "m" text \/ padded "M" text) /\
  (gender str_of_value c = Str "F" <-> padded "f" text \/ padded "F" text) /\
  (gender str_of_value c = NaN <->
   ~ (padded "m" text \/ padded "M" text \/ padded "f" text \/ padded "F" text)).
Proof.
  intros text. destruct (gender_cases c) as (GM & GF & GN & _). fold text in GM, GF, GN.
  simpl in GM, GF, GN.
  pose proof (stripped_capital text "m" "M" eq_refl upper_char_M) as SM.
  pose proof (stripped_capital text "f" "F" eq_refl upper_char_F) as SF.
  rewrite GM, GF, GN, SM, SF. tauto.
Qed.

(** The steps of the loader before the gender leave the gender cell of
    every row as the sheet has it. *)
Lemma rows_coerce_column d col :
  col ≠ "Sexo"%string ->
  exists g : row -> row,
    rows (coerce_column parse_datetime d col) = g <$> rows d /\
    forall r, at_col (g r) "Sexo" = at_col r "Sexo".
Proof.
  intros Hc. unfold coerce_column. destruct (has_col col d).
  - eexists. split; [reflexivity|]. intros r. simpl.
    rewrite at_col_insert. by rewrite bool_decide_eq_false_2.
  - exists id. split; [by rewrite list_fmap_id|done].
Qed.

Lemma rows_before_gender raw d :
  add_idade today (dates (relabel raw)) = Ok d ->
  exists g : row -> row,
    rows (add_status d) = g <$> rows (relabel raw) /\
    forall r, at_col (g r) "Sexo" = at_col r "Sexo".
Proof.
  intros A.
  assert (D : exists g : row -> row,
            rows (dates (relabel raw)) = g <$> rows (relabel raw) /\
            forall r, at_col (g r) "Sexo" = at_col r "Sexo").
  { unfold coerce_dates, date_cols. cbn [foldl].
    destruct (rows_coerce_column (relabel raw) "Data_de_Nascimento")
      as (g1 & R1 & H1); [done|].
    destruct (rows_coerce_column
                (coerce_column parse_datetime (relabel raw) "Data_de_Nascimento")
                "Data_de_Contratacao") as (g2 & R2 & H2); [done|].
    destruct (rows_coerce_column
                (coerce_column parse_datetime
                   (coerce_column parse_datetime (relabel raw) "Data_de_Nascimento")
                   "Data_de_Contratacao") "Data_de_Demissao")
      as (g3 & R3 & H3); [done|].
    exists (g3 ∘ g2 ∘ g1). split.
    - by rewrite R3, R2, R1, <- !list_fmap_compose.
    - intros r. simpl. by rewrite H3, H2, H1. }
  destruct D as (g & R & H).
  assert (I : exists gi : row -> row,
            rows d = gi <$> rows (dates (relabel raw)) /\
            forall r, at_col (gi r) "Sexo" = at_col r "Sexo").
  { unfold add_idade in A. destruct (has_col _ _).
    - destruct (forallb _ _); [|done]. injection A as <-.
      eexists. split; [reflexivity|]. intros r. simpl.
      rewrite at_col_insert. by rewrite bool_decide_eq_false_2.
    - injection A as <-. exists id. split; [by rewrite list_fmap_id|done]. }
  destruct I as (gi & Ri & Hi).
  assert (S : exists gs : row -> row,
            rows (add_status d) = gs <$> rows d /\
            forall r, at_col (gs r) "Sexo" = at_col r "Sexo").
  { unfold add_status. destruct (has_col _ d);
      (eexists; split; [reflexivity|]; intros r; simpl;
       rewrite at_col_insert; by rewrite bool_decide_eq_false_2). }
  destruct S as (gs & Rs & Hs).
  exists (gs ∘ gi ∘ g). split.
  - by rewrite Rs, Ri, R, <- !list_fmap_compose.
  - intros r. simpl. by rewrite Hs, Hi, H.
Qed.

Lemma rows_normalize_sexo d :
  has_col "Sexo" d = true ->
  exists h : row -> row,
    rows (sexo_of d) = h <$> rows d /\
    forall r, at_col (h r) "Sexo" = gender str_of_value (at_col r "Sexo").
Proof.
  intros Hc. unfold normalize_sexo. rewrite Hc. cbn [rows assign].
  eexists. split.
  - rewrite <- list_fmap_compose. reflexivity.
  - intros r. unfold compose. rewrite !at_col_insert.
    by rewrite !bool_decide_eq_true_2.
Qed.

(** C8. In a loaded table that has the gender column, row by row: the
    gender is 'M' exactly when the cell of the sheet, read as text, is an m
    or an M between blanks (if any), 'F' exactly when it is an f or an F
    between blanks, and missing for any other cell; so every row of the
    table, and of every filtered view, holds 'M', 'F' or nothing. *)
Theorem gender_is_m_f_or_missing (file_path : string) (df : DataFrame) :
  load file_path = (df, true) ->
  has_col "Sexo" df = true ->
  (exists raw,
     read_excel file_path = Some (Ok raw) /\
     Forall2 (fun r0 r =>
                let text := astype_str str_of_value (at_col r0 "Sexo") in
                (at_col r "Sexo" = Str "M" <-> padded "m" text \/ padded "M" text) /\
                (at_col r "Sexo" = Str "F" <-> padded "f" text \/ padded "F" text) /\
                (at_col r "Sexo" = NaN <->
                 ~ (padded "m" text \/ padded "M" text \/
                    padded "f" text \/ padded "F" text)))
             (rows (relabel raw)) (rows df)) /\
  (forall r, r ∈ rows df -> m_f_or_missing (at_col r "Sexo")) /\
  (forall w view r,
     sidebar_filters re_compile w df = Ok view ->
     r ∈ rows view -> m_f_or_missing (at_col r "Sexo")).
Proof.
  intros H Hc. apply load_true in H as (raw & R & P).
  apply prepare_ok in P as (d & A & ->).
  rewrite has_col_normalize_sexo in Hc.
  destruct (rows_before_gender raw d A) as (g & Rg & Hg).
  destruct (rows_normalize_sexo (add_status d) Hc) as (h & Rh & Hh).
  assert (B : forall r, r ∈ rows (sexo_of (add_status d)) ->
            m_f_or_missing (at_col r "Sexo")).
  { intros r. rewrite Rh. intros (r0 & -> & _)%list_elem_of_fmap.
    rewrite Hh. apply gender_cases. }
  split; [|split].
  - exists raw. split; [done|]. rewrite Rh, Rg, <- list_fmap_compose.
    apply Forall2_fmap_r, Forall_Forall2_diag, Forall_forall. intros r _.
    unfold compose. rewrite Hh, Hg. apply gender_of_text.
  - exact B.
  - intros w view r Hv Hr. apply B. eapply sidebar_filters_rows; eauto.
Qed.

Lemma has_col_coerce_column x d col :
  has_col x (coerce_column parse_datetime d col) = has_col x d.
Proof.
  unfold coerce_column. destruct (has_col col d) eqn:E; [|done].
  rewrite has_col_assign. case_bool_decide; [subst; by rewrite E|apply orb_false_r].
Qed.

Lemma elem_of_rows_coerce_column d col r0 :
  r0 ∈ rows d ->
  exists r, r ∈ rows (coerce_column parse_datetime d col) /\
    (forall x, x ≠ col -> at_col r x = at_col r0 x) /\
    (has_col col d = true -> at_col r col = datetime (at_col r0 col)).
Proof.
  intros H. unfold coerce_column. destruct (has_col col d).
  - exists (<[col := datetime (at_col r0 col)]> r0). split; [|split].
    + apply elem_of_rows_assign. eauto.
    + intros x Hx. rewrite at_col_insert. by rewrite bool_decide_eq_false_2.
    + intros _. rewrite at_col_insert. by rewrite bool_decide_eq_true_2.
  - exists r0. done.
Qed.

Lemma coerce_dates_birth d r0 :
  has_col "Data_de_Nascimento" d = true ->
  r0 ∈ rows d ->
  has_col "Data_de_Nascimento" (dates d) = true /\
  exists r, r ∈ rows (dates d) /\
    at_col r "Data_de_Nascimento" = datetime (at_col r0 "Data_de_Nascimento").
Proof.
  intros Hc Hr. unfold coerce_dates, date_cols. simpl. split.
  - by rewrite !has_col_coerce_column.
  - destruct (elem_of_rows_coerce_column d "Data_de_Nascimento" r0 Hr)
      as (r1 & H1 & _ & E1).
    destruct (elem_of_rows_coerce_column _ "Data_de_Contratacao" r1 H1)
      as (r2 & H2 & E2 & _).
    destruct (elem_of_rows_coerce_column _ "Data_de_Demissao" r2 H2)
      as (r3 & H3 & E3 & _).
    exists r3. split; [done|]. rewrite E3, E2 by done. auto.
Qed.

(** C2, on the code.  A sheet with the birth-date column in which one cell
    is blank, or is not read as a date, does not load: the age of that row
    cannot be cast to an integer, the exception is caught, and the result is
    the empty table with [success = false]. *)
Theorem blank_birth_date_fails_the_load (file_path : string) (raw : DataFrame) (r0 : row) :
  read_excel file_path = Some (Ok raw) ->
  has_col "Data_de_Nascimento" (relabel raw) = true ->
  r0 ∈ rows (relabel raw) ->
  datetime (at_col r0 "Data_de_Nascimento") = NaN ->
  load file_path = (empty_frame, false).
Proof.
  intros R Hc Hr Hn.
  destruct (coerce_dates_birth _ _ Hc Hr) as (Hc' & r & Hr' & E).
  unfold load_and_prepare_data. rewrite R. simpl.
  unfold prepare, add_idade. rewrite Hc'.
  replace (forallb _ _) with false; [done|].
  symmetry. apply not_true_is_false. intros F.
  rewrite forallb_forall in F. apply list_elem_of_In, F in Hr'.
  rewrite E, Hn in Hr'. done.
Qed.

End Loader.

(** ** The metrics and the downloads *)

Section Metrics.

Variable re_compile : string -> option (string -> bool).
Variable today : Z.

Lemma getitem_ok col df :
  has_col col df = true -> getitem col df = Ok ((fun r => at_col r col) <$> rows df).
Proof. unfold getitem. by intros ->. Qed.

Lemma getitem_raise col df :
  has_col col df = false -> getitem col df = Raise (KeyError col).
Proof. unfold getitem. by intros ->. Qed.

Lemma series_sum_rows (rs : list row) :
  Forall (fun r => number_or_missing (at_col r "Salario_Base") = true) rs ->
  exists x, series_sum ((fun r => at_col r "Salario_Base") <$> rs) = Ok x /\
            (x == total_salary rs)%Q.
Proof.
  unfold series_sum. induction 1 as [|r rs Hr _ (x & E & Hx)]; simpl.
  - exists 0%Q. done.
  - unfold salary. destruct (at_col r "Salario_Base") as [| |q|]; try done.
    + exists x. split; [done|]. rewrite Hx. ring.
    + destruct (numbers _) as [qs|]; [|done]. simpl in *.
      injection E as <-. exists (q + Qsum qs)%Q. split; [done|].
      unfold Qsum in Hx. by rewrite Hx.
Qed.

Lemma total_salary_split (mask : row -> bool) (rs : list row) :
  (total_salary (List.filter mask rs)
   + total_salary (List.filter (fun r => negb (mask r)) rs) == total_salary rs)%Q.
Proof.
  induction rs as [|r rs IH]; simpl; [done|].
  destruct (mask r); simpl; rewrite <- IH; ring.
Qed.

Lemma folha_numeric df :
  has_col "Salario_Base" df = true ->
  Forall (fun r => number_or_missing (at_col r "Salario_Base") = true) (rows df) ->
  exists x, folha_salarial_anual_fmt df = Ok (Reais (Num x)) /\
            (x == 12 * total_salary (rows df))%Q.
Proof.
  intros Hc Hn. unfold folha_salarial_anual_fmt, folha_salarial_anual.
  rewrite Hc, getitem_ok by done. simpl.
  destruct (series_sum_rows _ Hn) as (t & -> & Ht). simpl.
  exists (t * 12)%Q. split; [done|]. rewrite Ht. ring.
Qed.

(** C5. The annual payroll shown for a view is "N/A" without the salary
    column; with it (its cells numbers or missing) it is the amount 12 times
    the sum of the salaries of the rows of the view, so that the rows a mask
    removes take exactly 12 times their salaries out of it. *)
Theorem annual_payroll_is_twelve_times_salaries (df_filtered : DataFrame) :
  (has_col "Salario_Base" df_filtered = false ->
   folha_salarial_anual_fmt df_filtered = Ok NA) /\
  (has_col "Salario_Base" df_filtered = true ->
   Forall (fun r => number_or_missing (at_col r "Salario_Base") = true)
          (rows df_filtered) ->
   exists x,
     folha_salarial_anual_fmt df_filtered = Ok (Reais (Num x)) /\
     (x == 12 * total_salary (rows df_filtered))%Q /\
     forall mask, exists y,
       folha_salarial_anual_fmt (select_rows mask df_filtered) = Ok (Reais (Num y)) /\
       (y == 12 * total_salary (rows (select_rows mask df_filtered)))%Q /\
       (y == x - 12 * total_salary
                       (List.filter (fun r => negb (mask r)) (rows df_filtered)))%Q).
Proof.
  split.
  - intros Hc. unfold folha_salarial_anual_fmt. by rewrite Hc.
  - intros Hc Hn. destruct (folha_numeric _ Hc Hn) as (x & E & Hx).
    exists x. split; [done|]. split; [done|]. intros mask.
    destruct (folha_numeric (select_rows mask df_filtered)) as (y & Ey & Hy).
    { done. }
    { simpl. apply Forall_forall. intros r [Hr _]%elem_of_filter_bool.
      by apply (proj1 (Forall_forall _ _) Hn). }
    exists y. split; [done|]. split; [done|].
    rewrite Hy, Hx. simpl.
    rewrite <- (total_salary_split mask (rows df_filtered)). ring.
Qed.

(** C7, on the code.  A view without the hire-date column stops the KPI
    block with a [KeyError], and a search typed against a view without the
    name column stops the filters with a [KeyError]: neither place tests
    for its column. *)
Theorem missing_optional_column_raises (df_filtered : DataFrame) (query : string) :
  (has_col "Status" df_filtered = true ->
   has_col "Data_de_Contratacao" df_filtered = false ->
   kpis today df_filtered = Raise (KeyError "Data_de_Contratacao")) /\
  (query ≠ EmptyString ->
   has_col "Nome_Completo" df_filtered = false ->
   filter_nome re_compile query df_filtered = Raise (KeyError "Nome_Completo")).
Proof.
  split.
  - intros Hs Hc. unfold kpis, count_eq, count_this_year.
    rewrite (getitem_ok "Status") by done. simpl.
    by rewrite getitem_raise.
  - intros Hq Hc. unfold filter_nome.
    by rewrite bool_decide_eq_false_2, Hc.
Qed.

Lemma has_col_drop_columns x cols df :
  has_col x (drop_columns cols df) = has_col x df && negb (bool_decide (x ∈ cols)).
Proof.
  unfold has_col, labels, drop_columns; simpl.
  apply eq_true_iff_eq.
  rewrite andb_true_iff, negb_true_iff, !bool_decide_eq_true, bool_decide_eq_false.
  rewrite !list_elem_of_fmap. split.
  - intros ([c d] & -> & [H1 H2]%elem_of_filter_bool). simpl in *.
    apply negb_true_iff, bool_decide_eq_false in H2. split; [|done].
    exists (c, d). done.
  - intros [([c d] & -> & H1) H2]. exists (c, d). split; [done|].
    apply elem_of_filter_bool. split; [done|]. simpl.
    by apply negb_true_iff, bool_decide_eq_false.
Qed.

Lemma add_faixa_etaria_ok df out :
  add_faixa_etaria df = Ok out ->
  length (rows out) = length (rows df) /\
  forall x, has_col x out =
            has_col x df
            || (has_col "Idade" df && bool_decide (x = "Faixa_Etaria"%string)).
Proof.
  unfold add_faixa_etaria. destruct (has_col "Idade" df).
  - destruct (forallb _ _); [|done]. intros [= <-]. split.
    + simpl. apply length_fmap.
    + intros x. apply has_col_assign.
  - intros [= <-]. split; [done|]. intros x. by rewrite orb_false_r.
Qed.

Lemma add_custo_total_ok df out :
  add_custo_total df = Ok out ->
  length (rows out) = length (rows df) /\
  forall x, has_col x out =
            has_col x df || bool_decide (x = "Custo_Total_Mensal"%string).
Proof.
  unfold add_custo_total. destruct (has_col "Custo_Total_Mensal" df) eqn:E; simpl.
  - intros [= <-]. split; [done|]. intros x.
    case_bool_decide; [subst; by rewrite E|by rewrite orb_false_r].
  - destruct (forallb _ _); [|done]. intros [= <-]. split.
    + simpl. apply length_fmap.
    + intros x. apply has_col_assign.
Qed.

Lemma add_estado_ok df out :
  add_estado df = Ok out ->
  length (rows out) = length (rows df) /\
  forall x, has_col x df = true -> has_col x out = true.
Proof.
  unfold add_estado. destruct (has_col endereco df).
  - destruct (dtype_of _ _) as [[]|]; try done. intros [= <-]. split.
    + simpl. apply length_fmap.
    + intros x Hx. by rewrite has_col_assign, Hx.
  - intros [= <-]. done.
Qed.

Lemma charts_ok df out :
  charts df = Ok out ->
  length (rows out) = length (rows df) /\
  has_col "Custo_Total_Mensal" out = true /\
  (has_col "Idade" df = true -> has_col "Faixa_Etaria" out = true) /\
  (forall x, has_col x df = true -> has_col x out = true).
Proof.
  unfold charts.
  destruct (add_faixa_etaria df) as [d1|] eqn:E1; simpl; [|done].
  destruct (add_custo_total d1) as [d2|] eqn:E2; simpl; [|done].
  intros E3.
  apply add_faixa_etaria_ok in E1 as [L1 C1].
  apply add_custo_total_ok in E2 as [L2 C2].
  apply add_estado_ok in E3 as [L3 C3].
  split; [congruence|]. split; [|split].
  - apply C3. rewrite C2. apply orb_true_r.
  - intros Hi. apply C3. rewrite C2, C1, Hi. simpl.
    by rewrite orb_true_r.
  - intros x Hx. apply C3. by rewrite C2, C1, Hx.
Qed.

Lemma has_col_labels x df : has_col x df = true <-> x ∈ labels df.
Proof. unfold has_col. apply bool_decide_eq_true. Qed.

(** C9, on the code.  Both downloads are written from [df_filtered] as
    the chart section left it: they hold one record per row of the view,
    under every column of the view, and also the total monthly cost and
    (when the view has ages) the age bucket; only the table shown on the
    page has these columns removed. *)
Theorem downloads_keep_chart_columns (df_filtered out : DataFrame) (k : KPIs) :
  has_col "Custo_Total_Mensal" df_filtered = false ->
  charts df_filtered = Ok out ->
  let page := table_and_downloads k out in
  ("Custo_Total_Mensal"%string ∈ (excel_buffer page).1 /\
   (has_col "Idade" df_filtered = true ->
    "Faixa_Etaria"%string ∈ (excel_buffer page).1) /\
   (forall x, has_col x df_filtered = true -> x ∈ (excel_buffer page).1) /\
   length (excel_buffer page).2 = length (rows df_filtered)) /\
  (empty out = false -> csv_bytes page = Some (excel_buffer page)) /\
  (forall shown, df_display page = Some shown ->
     has_col "Custo_Total_Mensal" shown = false /\
     has_col "Faixa_Etaria" shown = false /\
     has_col "Estado" shown = false).
Proof.
  intros Hc (L & C & F & K)%charts_ok. simpl.
  split; [|split].
  - split; [|split; [|split]].
    + by apply has_col_labels.
    + intros Hi. by apply has_col_labels, F.
    + intros x Hx. by apply has_col_labels, K.
    + by rewrite length_fmap.
  - by intros ->.
  - intros shown. destruct (empty out); simpl; [done|]. intros [= <-].
    rewrite !has_col_drop_columns.
    repeat split; apply andb_false_iff; right; done.
Qed.

End Metrics.

(** ** The labels of a loaded table *)

Section Labels.

Variable ascii_fold : string -> string.
Variable parse_datetime : cell -> option Z.
Variable str_of_value : cell -> string.
Variable re_compile : string -> option (string -> bool).
Variable read_excel : string -> option (result DataFrame).
Variable today : Z.

Lemma string_filter_forallb p s : string_forallb p (string_filter p s) = true.
Proof.
  induction s as [|a s IH]; simpl; [done|].
  destruct (p a) eqn:E; simpl; [by rewrite E|done].
Qed.

Lemma word_labels_assign col d f df :
  string_forallb is_word col = true ->
  word_labels df -> word_labels (assign col d f df).
Proof.
  unfold word_labels, labels, assign; simpl. intros Hc Hw.
  rewrite labels_set_dtype. case_bool_decide; [done|].
  apply Forall_app. split; [done|]. by constructor.
Qed.

Lemma word_labels_has_col col df :
  word_labels df -> has_col col df = true -> string_forallb is_word col = true.
Proof.
  intros Hw Hc%has_col_labels.
  by apply (proj1 (Forall_forall _ _) Hw).
Qed.

Lemma word_labels_normalize_columns df :
  word_labels (normalize_columns ascii_fold df).
Proof.
  unfold word_labels, labels, normalize_columns; simpl.
  rewrite <- list_fmap_compose. apply Forall_fmap, Forall_forall.
  intros [c d] _. simpl. apply string_filter_forallb.
Qed.

Lemma word_labels_coerce_column df col :
  word_labels df -> word_labels (coerce_column parse_datetime df col).
Proof.
  intros Hw. unfold coerce_column. destruct (has_col col df) eqn:E; [|done].
  apply word_labels_assign; [|done]. by eapply word_labels_has_col.
Qed.

Lemma word_labels_prepare raw df :
  prepare ascii_fold parse_datetime str_of_value today raw = Ok df ->
  word_labels df.
Proof.
  unfold prepare.
  destruct (add_idade today _) as [d|] eqn:A; simpl; [|done]. intros [= <-].
  assert (W0 : word_labels
                 (coerce_dates parse_datetime (normalize_columns ascii_fold raw))).
  { unfold coerce_dates, date_cols. simpl.
    do 3 apply word_labels_coerce_column. apply word_labels_normalize_columns. }
  assert (W1 : word_labels d).
  { unfold add_idade in A. destruct (has_col _ _); [|by injection A as <-].
    destruct (forallb _ _); [|done]. injection A as <-.
    by apply word_labels_assign. }
  assert (W2 : word_labels (add_status d)).
  { unfold add_status. destruct (has_col _ d); by apply word_labels_assign. }
  unfold normalize_sexo. destruct (has_col "Sexo" _); [|done].
  apply word_labels_assign; [done|]. by apply word_labels_assign.
Qed.

Lemma endereco_not_word : string_forallb is_word endereco = false.
Proof. vm_compute. reflexivity. Qed.

Lemma word_labels_no_endereco df : word_labels df -> has_col endereco df = false.
Proof.
  intros Hw. destruct (has_col endereco df) eqn:E; [|done].
  apply (word_labels_has_col _ _ Hw) in E. by rewrite endereco_not_word in E.
Qed.

(** Every label of a loaded table is made of letters, digits and
    underscores.  The map block tests for the label "Endereco" written
    with its cedilla, so it never runs on a view of a loaded table: the chart
    section adds the age bucket and the total monthly cost at most, and no
    region code is ever computed. *)
Theorem region_code_is_never_computed (file_path : string) (df : DataFrame) :
  load_and_prepare_data ascii_fold parse_datetime str_of_value read_excel today
    file_path = (df, true) ->
  word_labels df /\
  forall w view out,
    sidebar_filters re_compile w df = Ok view ->
    charts view = Ok out ->
    has_col endereco view = false /\
    forall x, has_col x out = true ->
      has_col x df = true
      \/ x = "Faixa_Etaria"%string \/ x = "Custo_Total_Mensal"%string.
Proof.
  intros H.
  assert (W : word_labels df).
  { unfold load_and_prepare_data in H.
    destruct (read_excel file_path) as [[raw|]|]; simpl in H; try done.
    destruct (prepare _ _ _ _ raw) as [d|] eqn:P; [|done].
    injection H as <-. by eapply word_labels_prepare. }
  split; [exact W|]. intros w view out Hv Hc.
  assert (C : columns view = columns df) by (by eapply sidebar_filters_columns).
  assert (L : forall x, has_col x view = has_col x df)
    by (intros x; unfold has_col, labels; by rewrite C).
  assert (Wv : word_labels view) by (unfold word_labels, labels; by rewrite C).
  split; [by apply word_labels_no_endereco|].
  unfold charts in Hc.
  destruct (add_faixa_etaria view) as [d1|] eqn:E1; simpl in Hc; [|done].
  destruct (add_custo_total d1) as [d2|] eqn:E2; simpl in Hc; [|done].
  apply add_faixa_etaria_ok in E1 as [_ C1].
  apply add_custo_total_ok in E2 as [_ C2].
  assert (W2 : word_labels d2).
  { apply Forall_forall. intros x Hx%has_col_labels.
    rewrite C2, C1, L in Hx.
    repeat (apply orb_true_iff in Hx as [Hx|Hx]).
    - exact (word_labels_has_col _ _ W Hx).
    - apply andb_true_iff in Hx as [_ Hx].
      apply bool_decide_eq_true in Hx. by subst x.
    - apply bool_decide_eq_true in Hx. by subst x. }
  unfold add_estado in Hc. rewrite (word_labels_no_endereco _ W2) in Hc.
  injection Hc as <-. intros x Hx. rewrite C2, C1, L in Hx.
  repeat (apply orb_true_iff in Hx as [Hx|Hx]).
  - by left.
  - apply andb_true_iff in Hx as [_ Hx].
    apply bool_decide_eq_true in Hx. right; by left.
  - apply bool_decide_eq_true in Hx. right; by right.
Qed.

(** The view is a selection of rows of the table under the same columns:
    the filters narrow, they never add or change a row. *)
Theorem filtered_view_is_a_selection (w : Sidebar) (df view : DataFrame) :
  sidebar_filters re_compile w df = Ok view ->
  columns view = columns df /\
  (exists mask, view = select_rows mask df) /\
  (forall r, r ∈ rows view -> r ∈ rows df) /\
  (length (rows view) <= length (rows df))%nat.
Proof.
  intros H. split; [by eapply sidebar_filters_columns|].
  split; [by eapply sidebar_filters_select|].
  split; [intros r; by eapply sidebar_filters_rows|].
  apply sidebar_filters_select in H as [mask ->]. simpl.
  apply filter_length_le.
Qed.

End Labels.

(** ** Ages *)

Lemma idade_of_days_bounds days :
  0 <= days ->
  0 <= idade_of_days days /\
  1461 * idade_of_days days <= 4 * days < 1461 * (idade_of_days days + 1).
Proof.
  intros H. unfold idade_of_days.
  rewrite Z.quot_div_nonneg by lia.
  pose proof (Z.div_mod (4 * days) 1461 ltac:(lia)) as E.
  pose proof (Z.mod_pos_bound (4 * days) 1461 ltac:(lia)) as B.
  pose proof (Z.div_pos (4 * days) 1461 ltac:(lia) ltac:(lia)).
  lia.
Qed.

Lemma idade_of_days_opp days : idade_of_days (- days) = - idade_of_days days.
Proof.
  unfold idade_of_days.
  replace (4 * - days) with (- (4 * days)) by lia.
  apply Z.quot_opp_l. lia.
Qed.

Lemma idade_of_days_mono a b : a <= b -> idade_of_days a <= idade_of_days b.
Proof.
  intros H. unfold idade_of_days. apply Z.quot_le_mono; lia.
Qed.

Lemma edge_reached (q : Q) (e lo : Z) :
  e <= lo -> (inject_Z lo <= q)%Q -> Qle_bool (inject_Z e) q = true.
Proof.
  intros H Hq. apply Qle_bool_iff. eapply Qle_trans; [|exact Hq].
  by rewrite <- Zle_Qle.
Qed.

Lemma edge_not_reached (q : Q) (e hi : Z) :
  hi <= e -> (q < inject_Z hi)%Q -> Qle_bool (inject_Z e) q = false.
Proof.
  intros H Hq. apply not_true_iff_false. intros Hle%Qle_bool_iff.
  eapply Qlt_not_le; [exact Hq|]. eapply Qle_trans; [|exact Hle].
  by rewrite <- Zle_Qle.
Qed.

Lemma edge_cases (q : Q) (e : Z) : (inject_Z e <= q)%Q \/ (q < inject_Z e)%Q.
Proof. destruct (Qlt_le_dec q (inject_Z e)); auto. Qed.

Lemma age_bucket_inside (q : Q) (lo hi : Z) (label : string) :
  (lo, hi, label) ∈ age_buckets ->
  (inject_Z lo <= q)%Q -> (q < inject_Z hi)%Q ->
  faixa_etaria (Num q) = Ok (Str label).
Proof.
  intros Hin Hlo Hhi. unfold age_buckets in Hin. unfold faixa_etaria.
  repeat (apply elem_of_cons in Hin as [Hin|Hin];
          [ injection Hin as -> -> ->;
            repeat match goal with
            | Hl : (inject_Z ?l <= q)%Q, Hh : (q < inject_Z ?h)%Q
              |- context [Qle_bool (inject_Z ?e) q] =>
                first [ rewrite (edge_reached q e l ltac:(lia) Hl)
                      | rewrite (edge_not_reached q e h ltac:(lia) Hh) ]
            end; reflexivity |]).
  by apply elem_of_nil in Hin.
Qed.

Lemma age_bucket_outside (q : Q) :
  (q < 0)%Q \/ (100 <= q)%Q -> faixa_etaria (Num q) = Ok NaN.
Proof.
  unfold faixa_etaria. intros [H|H].
  - by rewrite (edge_not_reached q 0 0 ltac:(lia) H).
  - repeat match goal with
    | |- context [Qle_bool (inject_Z ?e) q] =>
        rewrite (edge_reached q e 100 ltac:(lia) H)
    end. reflexivity.
Qed.

(** Every age from 0 up to, but not including, 100 gets the label of the
    one bucket whose edges hold it, the first edge included and the second
    not: 18 is labelled "19-25" and 65 is labelled "65+".  An age below 0 or
    of 100 and more gets no label. *)
Theorem age_bucket_is_left_closed (q : Q) :
  (forall lo hi label,
     (lo, hi, label) ∈ age_buckets ->
     (inject_Z lo <= q)%Q -> (q < inject_Z hi)%Q ->
     faixa_etaria (Num q) = Ok (Str label)) /\
  ((q < 0)%Q \/ (100 <= q)%Q <-> faixa_etaria (Num q) = Ok NaN) /\
  (forall label,
     faixa_etaria (Num q) = Ok (Str label) ->
     exists lo hi, (lo, hi, label) ∈ age_buckets /\
                   (inject_Z lo <= q)%Q /\ (q < inject_Z hi)%Q).
Proof.
  split; [intros lo hi label; apply age_bucket_inside|].
  assert (C : (q < 0)%Q \/ (100 <= q)%Q \/
              exists lo hi label, (lo, hi, label) ∈ age_buckets /\
                (inject_Z lo <= q)%Q /\ (q < inject_Z hi)%Q).
  { destruct (edge_cases q 0) as [H0|H0]; [|by left].
    destruct (edge_cases q 100) as [H100|H100]; [by right; left|].
    right; right.
    destruct (edge_cases q 18) as [H18|H18];
      [|exists 0, 18, "0-18"%string; split; [set_solver|done]].
    destruct (edge_cases q 25) as [H25|H25];
      [|exists 18, 25, "19-25"%string; split; [set_solver|done]].
    destruct (edge_cases q 35) as [H35|H35];
      [|exists 25, 35, "26-35"%string; split; [set_solver|done]].
    destruct (edge_cases q 45) as [H45|H45];
      [|exists 35, 45, "36-45"%string; split; [set_solver|done]].
    destruct (edge_cases q 55) as [H55|H55];
      [|exists 45, 55, "46-55"%string; split; [set_solver|done]].
    destruct (edge_cases q 65) as [H65|H65];
      [|exists 55, 65, "56-65"%string; split; [set_solver|done]].
    exists 65, 100, "65+"%string. split; [set_solver|done]. }
  split.
  - split; [apply age_bucket_outside|]. intros E.
    destruct C as [?|[?|(lo & hi & label & Hin & Hlo & Hhi)]]; auto.
    rewrite (age_bucket_inside q lo hi label) in E by done. done.
  - intros label E.
    destruct C as [H|[H|(lo & hi & label' & Hin & Hlo & Hhi)]].
    + rewrite age_bucket_outside in E by auto. done.
    + rewrite age_bucket_outside in E by auto. done.
    + rewrite (age_bucket_inside q lo hi label') in E by done.
      injection E as <-. eauto.
Qed.

(** ** The salary slider *)


Lemma int_of_below (q : Q) : (0 <= q)%Q -> (inject_Z (int_of q) <= q)%Q.
Proof.
  unfold Qle, int_of. simpl. intros H.
  rewrite Z.mul_1_r in *. rewrite Z.quot_div_nonneg by lia.
  rewrite Z.mul_comm. apply Z.mul_div_le. lia.
Qed.

Lemma slider_bounds_ok df ends :
  slider_bounds df = Ok (Some ends) <->
  salary_ends df = Ok (Some ends) /\
  ends.1 < ends.2 /\ - max_safe_integer <= ends.1 /\ ends.2 <= max_safe_integer.
Proof.
  unfold slider_bounds.
  destruct (salary_ends df) as [[[mn mx]|]|e]; simpl; [| |].
  - destruct (slider mn mx None) as [p|e] eqn:S; simpl.
    + apply slider_ok in S as (S1 & S2 & S3 & ->). simpl. split.
      * intros [= <-]. done.
      * intros ([= <-] & _). done.
    + apply slider_raise in S as [_ S]. split; [done|].
      intros ([= <-] & H). simpl in H. lia.
  - split; [done|]. by intros [[=] _].
  - split; [done|]. by intros [[=] _].
Qed.

Lemma filter_salario_bounds choice df :
  filter_salario choice df =
  slider_bounds df ≫= fun bounds =>
    match bounds with
    | None => Ok df
    | Some ends =>
        let '(lo, hi) := default ends choice in
        Ok (select_rows (fun r => in_sal_range lo hi (at_col r "Salario_Base")) df)
    end.
Proof.
  rewrite filter_salario_ends. unfold slider_bounds.
  destruct (salary_ends df) as [[[mn mx]|]|e]; simpl; [|done..].
  unfold slider. by destruct (_ && _).
Qed.




(** With salaries that are numbers, none below zero, the slider shown and
    left at its default keeps exactly the rows whose salary does not exceed
    [int(max)]: the lower end never cuts, the upper end cuts every salary
    above the whole part of the highest one, and rows without a salary are
    dropped. *)
Theorem default_slider_cuts_above_whole_maximum
    (df_filtered : DataFrame) (min_sal max_sal : Z) :
  Forall (fun r => match at_col r "Salario_Base" with
                   | NaN => True
                   | Num q => (0 <= q)%Q
                   | _ => False
                   end) (rows df_filtered) ->
  slider_bounds df_filtered = Ok (Some (min_sal, max_sal)) ->
  filter_salario None df_filtered =
    Ok (select_rows (fun r => match at_col r "Salario_Base" with
                              | Num q => Qle_bool q (inject_Z max_sal)
                              | _ => false
                              end) df_filtered) /\
  (exists r q, r ∈ rows df_filtered /\ at_col r "Salario_Base" = Num q /\
     max_sal = int_of q /\
     forall r' q', r' ∈ rows df_filtered -> at_col r' "Salario_Base" = Num q' ->
                   (q' <= q)%Q).
Proof.
  intros Hn E. rewrite filter_salario_bounds, E. simpl.
  apply slider_bounds_ok in E as (E & _). unfold salary_ends in E.
  destruct (has_col _ _); [|done]. destruct (dropna _); [done|].
  set (col := (fun r => at_col r "Salario_Base") <$> rows df_filtered) in *.
  destruct (numbers col) as [[|q qs]|] eqn:N; simpl in E; try done.
  injection E as <- <-.
  assert (Hcol : Forall (fun c => number_or_missing c = true) col).
  { apply Forall_fmap. eapply Forall_impl; [exact Hn|]. intros r. simpl.
    by destruct (at_col r "Salario_Base"). }
  destruct (numbers_ok col Hcol) as (qs' & N' & M). rewrite N in N'.
  injection N' as <-.
  destruct (qmin_foldr q qs) as [Min Mle], (qmax_foldr q qs) as [Max Mge].
  assert (Hpos : forall x, x ∈ q :: qs -> (0 <= x)%Q).
  { intros x (r & Ex & Hr)%M%list_elem_of_fmap.
    apply (proj1 (Forall_forall _ _) Hn) in Hr. by rewrite <- Ex in Hr. }
  split.
  - f_equal. apply select_rows_ext_in. intros r Hr.
    destruct (at_col r "Salario_Base") as [| |x|] eqn:Ex; try done. simpl.
    assert (Hx : x ∈ q :: qs).
    { apply M. rewrite <- Ex. apply list_elem_of_fmap. eauto. }
    replace (Qle_bool (inject_Z (int_of (foldr qmin q qs))) x) with true; [done|].
    symmetry. apply Qle_bool_iff.
    eapply Qle_trans; [apply int_of_below; by apply Hpos|by apply Mle].
  - apply M in Max as (r & Ex & Hr)%list_elem_of_fmap.
    exists r, (foldr qmax q qs). split; [done|]. split; [done|]. split; [done|].
    intros r' q' Hr' Eq'. apply Mge, M. rewrite <- Eq'.
    apply list_elem_of_fmap. eauto.
Qed.

(** ** Mean salary and payroll *)

Lemma numbers_of_salaries (rs : list row) :
  Forall (fun r => number_or_missing (at_col r "Salario_Base") = true) rs ->
  exists qs,
    numbers ((fun r => at_col r "Salario_Base") <$> rs) = Ok qs /\
    (Qsum qs == total_salary rs)%Q /\
    length qs = length (List.filter (fun r => notna (at_col r "Salario_Base")) rs).
Proof.
  induction 1 as [|r rs Hr _ (qs & E & S & L)]; simpl.
  - exists []. done.
  - unfold salary. destruct (at_col r "Salario_Base") as [| |q|]; try done; simpl.
    + exists qs. split; [done|]. split; [|done]. rewrite <- S. ring.
    + destruct (numbers _) as [qs'|]; [|done]. injection E as ->. simpl.
      exists (q :: qs). split; [done|]. split.
      * simpl. unfold Qsum in S. by rewrite S.
      * simpl. by rewrite L.
Qed.

(** With a salary column of numbers, the mean card is "N/A" on a view
    without rows, an amount that is not a number on a view whose rows all
    lack a salary, and otherwise the mean over the rows that have one; the
    payroll card is then 12 times that mean times the number of those
    rows. *)
Theorem mean_salary_matches_payroll (df_filtered : DataFrame) :
  has_col "Salario_Base" df_filtered = true ->
  Forall (fun r => number_or_missing (at_col r "Salario_Base") = true)
         (rows df_filtered) ->
  let paid :=
    length (List.filter (fun r => notna (at_col r "Salario_Base"))
                        (rows df_filtered)) in
  (rows df_filtered = [] -> salario_medio_fmt df_filtered = Ok NA) /\
  (rows df_filtered ≠ [] -> paid = 0%nat ->
   salario_medio_fmt df_filtered = Ok (Reais NaN) /\
   exists x, folha_salarial_anual_fmt df_filtered = Ok (Reais (Num x)) /\
             (x == 0)%Q) /\
  ((0 < paid)%nat ->
   exists m x,
     salario_medio_fmt df_filtered = Ok (Reais (Num m)) /\
     folha_salarial_anual_fmt df_filtered = Ok (Reais (Num x)) /\
     (m * inject_Z (Z.of_nat paid) == total_salary (rows df_filtered))%Q /\
     (x == 12 * (m * inject_Z (Z.of_nat paid)))%Q).
Proof.
  intros Hc Hn paid.
  destruct (numbers_of_salaries _ Hn) as (qs & E & S & L). fold paid in L.
  assert (F : folha_salarial_anual_fmt df_filtered
              = Ok (Reais (Num (Qsum qs * 12)))).
  { unfold folha_salarial_anual_fmt, folha_salarial_anual, series_sum.
    rewrite Hc, getitem_ok by done. simpl. rewrite E. done. }
  assert (Mn : rows df_filtered ≠ [] ->
               salario_medio_fmt df_filtered =
               Ok (brl match qs with
                       | [] => NaN
                       | _ :: _ => Num (Qsum qs / inject_Z (Z.of_nat (length qs)))
                       end)).
  { intros Hr. unfold salario_medio_fmt, series_mean.
    assert ((0 <? length (rows df_filtered))%nat = true) as ->.
    { destruct (rows df_filtered); [done|]. done. }
    rewrite Hc, getitem_ok by done. simpl. rewrite E. simpl. by destruct qs. }
  split; [|split].
  - intros R. unfold salario_medio_fmt. rewrite R. simpl. by rewrite andb_false_r.
  - intros Hr Hp. rewrite Hp in L. destruct qs; [|done]. split.
    + by rewrite Mn.
    + exists (Qsum [] * 12)%Q. split; [done|]. reflexivity.
  - intros Hp.
    assert (Hr : rows df_filtered ≠ []).
    { intros R. unfold paid in Hp. rewrite R in Hp. simpl in Hp. lia. }
    destruct qs as [|q qs]; [simpl in L; lia|].
    exists (Qsum (q :: qs) / inject_Z (Z.of_nat (length (q :: qs))))%Q,
           (Qsum (q :: qs) * 12)%Q.
    split; [by rewrite Mn|]. split; [done|].
    assert (Nz : ~ (inject_Z (Z.of_nat paid) == 0)%Q).
    { unfold Qeq. simpl. lia. }
    rewrite L. split.
    + rewrite <- S. field. exact Nz.
    + field. exact Nz.
Qed.

(** ** Select boxes *)

Lemma same_value_refl c : same_value c c = true.
Proof.
  destruct c as [|s|q|t]; simpl; [done| | |].
  - by apply bool_decide_eq_true.
  - apply Qeq_bool_iff. reflexivity.
  - apply Z.eqb_refl.
Qed.

Lemma same_value_sym c v : same_value c v = same_value v c.
Proof.
  destruct c as [|a|a|a], v as [|b|b|b]; simpl; try done.
  - apply bool_decide_ext. split; congruence.
  - destruct (Qeq_bool a b) eqn:E; symmetry.
    + apply Qeq_bool_iff. symmetry. by apply Qeq_bool_iff.
    + apply not_true_iff_false. intros E'%Qeq_bool_iff.
      apply not_true_iff_false in E. apply E, Qeq_bool_iff. by symmetry.
  - apply Z.eqb_sym.
Qed.

Lemma same_value_trans a b c :
  same_value a b = true -> same_value b c = true -> same_value a c = true.
Proof.
  destruct a as [|a|a|a], b as [|b|b|b], c as [|c|c|c]; simpl; try done.
  - intros ->%bool_decide_eq_true ->%bool_decide_eq_true.
    by apply bool_decide_eq_true.
  - intros H1%Qeq_bool_iff H2%Qeq_bool_iff. apply Qeq_bool_iff.
    by rewrite H1.
  - intros ->%Z.eqb_eq ->%Z.eqb_eq. apply Z.eqb_refl.
Qed.

Lemma unique_sublist cs v : v ∈ unique cs -> v ∈ cs.
Proof.
  induction cs as [|c cs IH]; simpl; [done|].
  intros [->|H]%elem_of_cons; [left|right].
  apply IH. by apply elem_of_filter_bool in H as [H _].
Qed.

Lemma unique_complete cs c :
  c ∈ cs -> exists v, v ∈ unique cs /\ same_value c v = true.
Proof.
  induction cs as [|c0 cs IH]; simpl; [by intros ?%elem_of_nil|].
  intros [->|H]%elem_of_cons.
  - exists c0. split; [left|apply same_value_refl].
  - destruct (IH H) as (v & Hv & E).
    destruct (same_value v c0) eqn:E0.
    + exists c0. split; [left|]. by apply same_value_trans with v.
    + exists v. split; [|done]. right.
      apply elem_of_filter_bool. by rewrite E0.
Qed.

Lemma unique_distinct cs :
  forall i j v w, unique cs !! i = Some v -> unique cs !! j = Some w ->
                  same_value v w = true -> i = j.
Proof.
  assert (F : forall (c : cell) l v, v ∈ List.filter (fun v => negb (same_value v c)) l ->
                 v ∈ l /\ same_value v c = false).
  { intros c l v [? ?%negb_true_iff]%elem_of_filter_bool. done. }
  assert (S : forall (p : cell -> bool) l,
            (forall i j v w, l !! i = Some v -> l !! j = Some w ->
                             same_value v w = true -> i = j) ->
            forall i j v w, List.filter p l !! i = Some v ->
                            List.filter p l !! j = Some w ->
                            same_value v w = true -> i = j).
  { intros p l. induction l as [|x l IHl]; simpl; intros D i j v w Hi Hj E.
    - by rewrite lookup_nil in Hi.
    - assert (D' : forall i j v w, l !! i = Some v -> l !! j = Some w ->
                                    same_value v w = true -> i = j).
      { intros i' j' v' w' Hi' Hj' E'.
        assert (Datatypes.S i' = Datatypes.S j') by (eapply D; eauto). lia. }
      destruct (p x); [|by eapply IHl].
      destruct i as [|i], j as [|j]; simpl in *.
      + done.
      + injection Hi as <-.
        assert (Hw : w ∈ l).
        { apply list_elem_of_lookup_2 in Hj.
          by apply elem_of_filter_bool in Hj as [? _]. }
        apply list_elem_of_lookup_1 in Hw as [k Hk].
        assert (0%nat = Datatypes.S k) by (eapply (D 0%nat (Datatypes.S k)); eauto).
        done.
      + injection Hj as <-.
        assert (Hv : v ∈ l).
        { apply list_elem_of_lookup_2 in Hi.
          by apply elem_of_filter_bool in Hi as [? _]. }
        apply list_elem_of_lookup_1 in Hv as [k Hk].
        assert (Datatypes.S k = 0%nat) by (eapply (D (Datatypes.S k) 0%nat); eauto).
        done.
      + f_equal. by eapply IHl. }
  induction cs as [|c cs IH]; simpl; intros i j v w Hi Hj E.
  - by rewrite lookup_nil in Hi.
  - destruct i as [|i], j as [|j]; simpl in *.
    + done.
    + injection Hi as <-. apply list_elem_of_lookup_2, F in Hj as [_ Hj].
      rewrite same_value_sym in E. congruence.
    + injection Hj as <-. apply list_elem_of_lookup_2, F in Hi as [_ Hi].
      congruence.
    + f_equal. eapply (S _ _ IH); eauto.
Qed.

Lemma cell_eqb_nan c : cell_eqb c NaN = false.
Proof. by destruct c. Qed.

Lemma filter_none {A : Type} (p : A -> bool) (l : list A) :
  (forall x, p x = false) -> List.filter p l = [].
Proof.
  intros H. induction l as [|x l IH]; simpl; [done|]. by rewrite H.
Qed.

Lemma cell_eqb_refl c : c ≠ NaN -> cell_eqb c c = true.
Proof.
  intros H. pose proof (same_value_refl c) as E. by destruct c.
Qed.

(** A select box offers "Todos" and then each value of its column once,
    every value of the column being among them.  Picking an offered value
    keeps the rows that hold it, at least one; picking the missing value,
    offered when some cell of the column is blank, leaves no row; and a
    value spelled "Todos" filters nothing. *)
Theorem offered_option_keeps_its_rows
    (col : string) (df_filtered : DataFrame) (opts : list cell) :
  options col df_filtered = Some opts ->
  (forall r, r ∈ rows df_filtered ->
     exists v, v ∈ opts /\ same_value (at_col r col) v = true) /\
  (forall i j v w, opts !! S i = Some v -> opts !! S j = Some w ->
     same_value v w = true -> i = j) /\
  (forall selected, selected ∈ opts ->
     (selected = Str "Todos" ->
      filter_equal col selected df_filtered = df_filtered) /\
     (selected = NaN -> rows (filter_equal col selected df_filtered) = []) /\
     (selected ≠ Str "Todos" -> selected ≠ NaN ->
      rows (filter_equal col selected df_filtered) ≠ [] /\
      forall r, r ∈ rows (filter_equal col selected df_filtered) <->
                r ∈ rows df_filtered /\ cell_eqb (at_col r col) selected = true)).
Proof.
  unfold options. destruct (has_col col df_filtered) eqn:C; [|done].
  intros [= <-]. set (cs := (fun r => at_col r col) <$> rows df_filtered).
  split; [|split].
  - intros r Hr.
    destruct (unique_complete cs (at_col r col)) as (v & Hv & E).
    { apply list_elem_of_fmap. eauto. }
    exists v. split; [by right|done].
  - intros i j v w Hi Hj E. simpl in Hi, Hj. by eapply unique_distinct.
  - intros selected Hs. unfold filter_equal. rewrite C. split; [|split].
    + intros ->. simpl. done.
    + intros ->. simpl. apply filter_none. intros r. apply cell_eqb_nan.
    + intros Ht Hn.
      assert (Nt : not_todos selected = true).
      { destruct selected as [|s| |]; try done. simpl.
        rewrite bool_decide_eq_false_2; [done|]. intros ->. done. }
      rewrite Nt. simpl.
      assert (Hrows : forall r,
                r ∈ List.filter (fun r => cell_eqb (at_col r col) selected)
                                (rows df_filtered) <->
                r ∈ rows df_filtered /\ cell_eqb (at_col r col) selected = true).
      { intros r.
        exact (elem_of_filter_bool (fun r => cell_eqb (at_col r col) selected) _ r). }
      split; [|exact Hrows].
      apply elem_of_cons in Hs as [->|Hs]; [done|].
      apply unique_sublist, list_elem_of_fmap in Hs as (r & -> & Hr).
      intros E. assert (Hin : r ∈ @nil row); [|by apply elem_of_nil in Hin].
      rewrite <- E. apply Hrows. split; [done|]. by apply cell_eqb_refl.
Qed.

(** ** The table under the charts *)

Lemma labels_assign col d f df :
  labels (assign col d f df)
  = if bool_decide (col ∈ labels df) then labels df else labels df ++ [col].
Proof. apply labels_set_dtype. Qed.

Lemma labels_drop_columns cols df :
  labels (drop_columns cols df)
  = List.filter (fun l => negb (bool_decide (l ∈ cols))) (labels df).
Proof.
  unfold labels, drop_columns. simpl.
  induction (columns df) as [|[l d] cs IH]; [done|]. csimpl.
  destruct (bool_decide (l ∈ cols)); csimpl; by rewrite IH.
Qed.

Lemma at_col_delete_all (r : row) cols x :
  at_col (foldr delete r cols) x
  = if bool_decide (x ∈ cols) then NaN else at_col r x.
Proof.
  unfold at_col. induction cols as [|c cols IH]; cbn [foldr].
  - case_bool_decide as H; [by apply elem_of_nil in H|done].
  - destruct (decide (c = x)) as [->|Hne].
    + rewrite lookup_delete_eq. by rewrite bool_decide_eq_true_2 by left.
    + rewrite lookup_delete_ne by done. rewrite IH.
      apply (f_equal (fun b : bool => if b then NaN else default NaN (r !! x))).
      apply bool_decide_ext. rewrite elem_of_cons. split; [auto|].
      intros [->|]; done.
Qed.

Lemma same_but_charts_refl df : same_but_charts df df.
Proof. split; [done|]. exists id. split; [by rewrite list_fmap_id|done]. Qed.

Lemma same_but_charts_trans a b c :
  same_but_charts a b -> same_but_charts b c -> same_but_charts a c.
Proof.
  intros [L1 (g1 & R1 & H1)] [L2 (g2 & R2 & H2)]. split; [congruence|].
  exists (g2 ∘ g1). split.
  - by rewrite R2, R1, <- list_fmap_compose.
  - intros r x Hx. simpl. by rewrite H2, H1.
Qed.

Lemma chart_step_same df out : chart_step df out -> same_but_charts df out.
Proof.
  intros [->|(col & d & f & Hc & ->)]; [apply same_but_charts_refl|]. split.
  - rewrite labels_assign. case_bool_decide; [done|].
    rewrite List.filter_app. simpl.
    rewrite bool_decide_eq_true_2 by done. simpl. by rewrite app_nil_r.
  - exists (fun r => <[col := f r]> r). split; [done|].
    intros r x Hx. rewrite at_col_insert.
    rewrite bool_decide_eq_false_2; [done|]. by intros ->.
Qed.

Lemma add_faixa_etaria_step df out :
  add_faixa_etaria df = Ok out -> chart_step df out.
Proof.
  unfold add_faixa_etaria. destruct (has_col _ df); [|intros [= <-]; by left].
  destruct (forallb _ _); [|done]. intros [= <-]. right.
  eexists _, _, _. split; [|done]. unfold transient_cols. set_solver.
Qed.

Lemma add_custo_total_step df out :
  add_custo_total df = Ok out -> chart_step df out.
Proof.
  unfold add_custo_total. destruct (negb _); [|intros [= <-]; by left].
  destruct (forallb _ _); [|done]. intros [= <-]. right.
  eexists _, _, _. split; [|done]. unfold transient_cols. set_solver.
Qed.

Lemma add_estado_step df out :
  add_estado df = Ok out -> chart_step df out.
Proof.
  unfold add_estado. destruct (has_col _ df); [|intros [= <-]; by left].
  destruct (dtype_of _ df) as [[]|]; try done. intros [= <-]. right.
  eexists _, _, _. split; [|done]. unfold transient_cols. set_solver.
Qed.

Lemma charts_same df out : charts df = Ok out -> same_but_charts df out.
Proof.
  unfold charts.
  destruct (add_faixa_etaria df) as [d1|] eqn:E1; simpl; [|done].
  destruct (add_custo_total d1) as [d2|] eqn:E2; simpl; [|done].
  intros E3.
  eapply same_but_charts_trans; [|eapply same_but_charts_trans].
  - by apply chart_step_same, add_faixa_etaria_step.
  - by apply chart_step_same, add_custo_total_step.
  - by apply chart_step_same, add_estado_step.
Qed.

(** The chart section leaves every row of the view in its place and every
    cell outside the three chart columns as it was; the table shown under
    the charts has the columns of the view, in their order, without those
    three, and in each row the cells of the view under them. *)
Theorem table_shows_the_view_cells (df_filtered out : DataFrame) (k : KPIs) :
  charts df_filtered = Ok out ->
  Forall2 (fun r r' => forall x, x ∉ transient_cols -> at_col r' x = at_col r x)
          (rows df_filtered) (rows out) /\
  forall shown,
    df_display (table_and_downloads k out) = Some shown ->
    labels shown
    = List.filter (fun l => negb (bool_decide (l ∈ transient_cols)))
                  (labels df_filtered) /\
    Forall2 (fun r r' => forall x,
               at_col r' x
               = if bool_decide (x ∈ transient_cols) then NaN else at_col r x)
            (rows df_filtered) (rows shown).
Proof.
  intros [L (g & R & H)]%charts_same. split.
  { rewrite R. apply Forall2_fmap_r, Forall_Forall2_diag, Forall_forall.
    intros r _ x Hx. by apply H. }
  intros shown. unfold table_and_downloads. cbn [df_display].
  destruct (negb (empty out)); [|done]. intros [= <-]. split.
  - by rewrite labels_drop_columns.
  - unfold drop_columns. cbn [rows]. rewrite R, <- list_fmap_compose.
    apply Forall2_fmap_r, Forall_Forall2_diag, Forall_forall.
    intros r _ x. unfold compose.
    rewrite at_col_delete_all. case_bool_decide; [done|]. by apply H.
Qed.

(** ** Column types *)








(** ** The cards of a loaded table *)

Section Cards.

Variable ascii_fold : string -> string.
Variable parse_datetime : cell -> option Z.
Variable str_of_value : cell -> string.
Variable re_compile : string -> option (string -> bool).
Variable read_excel : string -> option (result DataFrame).
Variable today : Z.

#[local] Abbreviation load :=
  (load_and_prepare_data ascii_fold parse_datetime str_of_value read_excel today).

Lemma add_idade_inv d0 d :
  add_idade today d0 = Ok d ->
  (has_col "Data_de_Nascimento" d0 = false /\ d = d0) \/
  (has_col "Data_de_Nascimento" d0 = true /\
   (forall r, r ∈ rows d ->
      exists r0 t, r0 ∈ rows d0 /\ at_col r0 "Data_de_Nascimento" = Ts t /\
        r = <["Idade"%string :=
               Num (inject_Z (idade_of_days (days_since today t)))]> r0) /\
   forall x, has_col x d = has_col x d0 || bool_decide (x = "Idade"%string)).
Proof.
  unfold add_idade. destruct (has_col _ d0) eqn:C; [|intros [= <-]; by left].
  destruct (forallb _ _) eqn:F; [|done]. intros [= <-]. right.
  split; [done|]. split; [|intros x; apply has_col_assign].
  intros r (r0 & Hr0 & ->)%elem_of_rows_assign.
  rewrite forallb_forall in F. pose proof (F r0) as Fr.
  rewrite <- list_elem_of_In in Fr. specialize (Fr Hr0).
  apply bool_decide_eq_true in Fr as [a Ea].
  destruct (at_col r0 "Data_de_Nascimento") as [| | |t] eqn:Eb; try done.
  exists r0, t. split; [done|]. split; [done|]. simpl. done.
Qed.

(** Where a row of a loaded table comes from: a row of the table as the
    age step left it, with its status and its gender written over. *)
Lemma loaded_row_inv file_path df :
  load file_path = (df, true) ->
  exists raw d,
    read_excel file_path = Some (Ok raw) /\
    add_idade today
      (coerce_dates parse_datetime (normalize_columns ascii_fold raw)) = Ok d /\
    (forall x, has_col x df = has_col x d || bool_decide (x = "Status"%string)) /\
    forall r, r ∈ rows df ->
      (at_col r "Status" = Str "Ativo" \/ at_col r "Status" = Str "Desligado") /\
      exists r2, r2 ∈ rows d /\
        forall x, x ≠ "Sexo"%string -> x ≠ "Status"%string ->
                  at_col r x = at_col r2 x.
Proof.
  intros (raw & R & P)%load_true. apply prepare_ok in P as (d & A & ->).
  exists raw, d. split; [done|]. split; [done|]. split.
  - intros x. by rewrite has_col_normalize_sexo, has_col_add_status.
  - intros r (r1 & Hr1 & Hx & _)%elem_of_rows_normalize_sexo.
    apply elem_of_rows_add_status in Hr1 as (r2 & Hr2 & ->). split.
    + rewrite Hx by done. rewrite at_col_insert. simpl.
      destruct (_ && _); auto.
    + exists r2. split; [done|]. intros x H1 H2.
      rewrite Hx by done. rewrite at_col_insert.
      by rewrite bool_decide_eq_false_2.
Qed.

(** A table that loads with the birth-date column has a birth date in
    every row, and beside it the age as a whole number: the days lived
    times four, divided by 1461 and cut towards zero.  For a birth date not
    after today it is the number of whole spans of 365.25 days. *)
Theorem loaded_ages_are_whole (file_path : string) (df : DataFrame) :
  load file_path = (df, true) ->
  has_col "Data_de_Nascimento" df = true ->
  has_col "Idade" df = true /\
  forall r, r ∈ rows df ->
    exists t,
      at_col r "Data_de_Nascimento" = Ts t /\
      at_col r "Idade" = Num (inject_Z (idade_of_days (days_since today t))) /\
      (t <= today ->
       0 <= idade_of_days (days_since today t) /\
       1461 * idade_of_days (days_since today t)
         <= 4 * days_since today t
         < 1461 * (idade_of_days (days_since today t) + 1)).
Proof.
  intros (raw & d & _ & A & C & Hrows)%loaded_row_inv Hb.
  rewrite C in Hb. simpl in Hb. rewrite orb_false_r in Hb.
  apply add_idade_inv in A as [[Hn ->]|(Hc & Hd & Hcols)]; [congruence|].
  split.
  { rewrite C, Hcols. simpl. by rewrite orb_true_r. }
  intros r (_ & r2 & Hr2 & Hx)%Hrows.
  apply Hd in Hr2 as (r0 & t & Hr0 & Et & ->).
  exists t. rewrite !Hx by done. rewrite !at_col_insert. simpl.
  split; [done|]. split; [done|]. intros Ht.
  apply idade_of_days_bounds. unfold days_since.
  apply Z.div_pos; [lia|done].
Qed.

Lemma two_values_count (a b : cell) (cs : list cell) :
  cell_eqb a b = false -> cell_eqb a a = true -> cell_eqb b b = true ->
  Forall (fun c => c = a \/ c = b) cs ->
  (length (List.filter (fun c => cell_eqb c a) cs)
   + length (List.filter (fun c => cell_eqb c b) cs) = length cs)%nat.
Proof.
  intros Hab Ha Hb. induction 1 as [|c cs [->| ->] _ IH]; simpl; [done| |].
  - rewrite Ha, Hab. simpl. lia.
  - rewrite Hb.
    replace (cell_eqb b a) with false; [simpl; lia|].
    destruct a, b; simpl in *; try done.
    + by rewrite bool_decide_eq_false_2 by
        (intros ->; by rewrite bool_decide_eq_true_2 in Hab).
    + symmetry. apply not_true_iff_false. intros E%Qeq_bool_iff.
      apply not_true_iff_false in Hab. apply Hab, Qeq_bool_iff. by symmetry.
    + by rewrite Z.eqb_sym.
Qed.

Lemma disjoint_values_count (a b : cell) (cs : list cell) :
  (forall c, cell_eqb c a = true -> cell_eqb c b = false) ->
  (length (List.filter (fun c => cell_eqb c a) cs)
   + length (List.filter (fun c => cell_eqb c b) cs) <= length cs)%nat.
Proof.
  intros H. induction cs as [|c cs IH]; simpl; [done|].
  destruct (cell_eqb c a) eqn:E; simpl.
  - rewrite (H c E). lia.
  - destruct (cell_eqb c b); simpl; lia.
Qed.

Lemma count_eq_inv col v df n :
  count_eq col v df = Ok n ->
  has_col col df = true /\
  n = length (List.filter (fun c => cell_eqb c v)
                          ((fun r => at_col r col) <$> rows df)).
Proof.
  unfold count_eq, getitem. destruct (has_col col df); [|done].
  simpl. intros [= <-]. done.
Qed.

Lemma kpis_inv view k :
  kpis today view = Ok k ->
  headcount_total k = length (rows view) /\
  count_eq "Status" (Str "Ativo") view = Ok (headcount_ativo k) /\
  count_this_year today "Data_de_Contratacao" view = Ok (novas_contratacoes k) /\
  count_eq "Status" (Str "Desligado") view = Ok (total_demissoes k) /\
  count_sexo (Str "M") view = Ok (masculino_count k) /\
  count_sexo (Str "F") view = Ok (feminino_count k) /\
  folha_salarial_anual_fmt view = Ok (folha_card k) /\
  salario_medio_fmt view = Ok (salario_medio_card k) /\
  idade_media_fmt view = Ok (idade_media_card k).
Proof.
  unfold kpis.
  destruct (count_eq "Status" (Str "Ativo") view); simpl; [|done].
  destruct (count_this_year today _ view); simpl; [|done].
  destruct (count_eq "Status" (Str "Desligado") view); simpl; [|done].
  destruct (count_sexo (Str "M") view); simpl; [|done].
  destruct (count_sexo (Str "F") view); simpl; [|done].
  destruct (folha_salarial_anual_fmt view); simpl; [|done].
  destruct (salario_medio_fmt view); simpl; [|done].
  destruct (idade_media_fmt view); simpl; [|done].
  intros [= <-]. done.
Qed.

(** On every view of a loaded table for which the cards are computed, the
    active and the terminated employees add up to the headcount, men and
    women together do not exceed it, nor do this year's hires, and the
    headcount does not exceed the number of rows of the table. *)
Theorem card_counts_add_up
    (file_path : string) (df view : DataFrame) (w : Sidebar) (k : KPIs) :
  load file_path = (df, true) ->
  sidebar_filters re_compile w df = Ok view ->
  kpis today view = Ok k ->
  (headcount_ativo k + total_demissoes k = headcount_total k)%nat /\
  (masculino_count k + feminino_count k <= headcount_total k)%nat /\
  (novas_contratacoes k <= headcount_total k)%nat /\
  (headcount_total k <= length (rows df))%nat.
Proof.
  intros (raw & d & _ & _ & _ & Hrows)%loaded_row_inv Hv
         (T & A & N & D & M & F & _)%kpis_inv.
  apply count_eq_inv in A as [_ A], D as [_ D].
  assert (L : forall col, length ((fun r : row => at_col r col) <$> rows view)
                          = length (rows view)) by (intros; apply length_fmap).
  split; [|split; [|split]].
  - rewrite T, A, D, <- (L "Status"%string). apply two_values_count; try done.
    apply Forall_fmap, Forall_forall. intros r Hr. simpl.
    apply (sidebar_filters_rows _ _ _ _ _ Hv), Hrows in Hr as [Hr _]. exact Hr.
  - unfold count_sexo in M, F. destruct (has_col "Sexo" view); [|done].
    apply count_eq_inv in M as [_ M], F as [_ F].
    rewrite T, M, F, <- (L "Sexo"%string). apply disjoint_values_count.
    intros [| s | |]; simpl; try done.
    intros ->%bool_decide_eq_true. done.
  - unfold count_this_year, getitem in N.
    destruct (has_col _ view); [|done]. simpl in N.
    destruct (dtype_of _ view) as [[]|]; try done. injection N as <-.
    rewrite T, <- (L "Data_de_Contratacao"%string). apply filter_length_le.
  - rewrite T. apply sidebar_filters_select in Hv as [mask ->]. simpl.
    apply filter_length_le.
Qed.


(** ** The script on well-typed sheets *)



























(** ** The shape of a loaded table *)

Lemma labels_normalize_columns raw :
  labels (normalize_columns ascii_fold raw)
  = normalize_label ascii_fold <$> labels raw.
Proof.
  unfold labels, normalize_columns. cbn [columns].
  rewrite <- !list_fmap_compose. by apply list_fmap_ext.
Qed.

Lemma labels_coerce_column d col :
  labels (coerce_column parse_datetime d col) = labels d.
Proof.
  unfold coerce_column. destruct (has_col col d) eqn:E; [|done].
  rewrite labels_assign. apply has_col_labels in E.
  by rewrite bool_decide_eq_true_2.
Qed.

Lemma labels_coerce_dates d : labels (coerce_dates parse_datetime d) = labels d.
Proof.
  unfold coerce_dates, date_cols. simpl. by rewrite !labels_coerce_column.
Qed.

Lemma labels_normalize_sexo d : labels (normalize_sexo str_of_value d) = labels d.
Proof.
  unfold normalize_sexo. destruct (has_col "Sexo" d) eqn:E; [|done].
  apply has_col_labels in E. rewrite !labels_assign.
  rewrite (bool_decide_eq_true_2 _ E). by rewrite bool_decide_eq_true_2.
Qed.

Lemma length_rows_assign col d f df :
  length (rows (assign col d f df)) = length (rows df).
Proof. simpl. apply length_fmap. Qed.

Lemma length_rows_coerce_dates d :
  length (rows (coerce_dates parse_datetime d)) = length (rows d).
Proof.
  unfold coerce_dates, date_cols, coerce_column. simpl.
  repeat match goal with
         | |- context [has_col ?c ?d] => destruct (has_col c d)
         end; by rewrite ?length_rows_assign.
Qed.

(** Loading neither drops nor reorders anything: the table has one row
    per row of the sheet, and its columns are those of the sheet, under
    their normalized labels and in their order, followed by the age (when
    there are birth dates and no column has that label) and by the status
    (when no column has that label). *)
Theorem load_keeps_the_sheet_layout
    (file_path : string) (raw df : DataFrame) :
  read_excel file_path = Some (Ok raw) ->
  load file_path = (df, true) ->
  let base := normalize_label ascii_fold <$> labels raw in
  length (rows df) = length (rows raw) /\
  labels df
  = base
    ++ (if bool_decide ("Data_de_Nascimento"%string ∈ base) &&
           negb (bool_decide ("Idade"%string ∈ base))
        then ["Idade"%string] else [])
    ++ (if bool_decide ("Status"%string ∈ base) then [] else ["Status"%string]).
Proof.
  intros R (raw' & R' & P)%load_true base. rewrite R in R'. injection R' as <-.
  apply prepare_ok in P as (d & A & ->).
  set (d0 := coerce_dates parse_datetime (normalize_columns ascii_fold raw)) in *.
  assert (L0 : labels d0 = base).
  { unfold d0. by rewrite labels_coerce_dates, labels_normalize_columns. }
  assert (N0 : length (rows d0) = length (rows raw)).
  { unfold d0. rewrite length_rows_coerce_dates. simpl. apply length_fmap. }
  assert (Ld : labels d
               = base ++ (if bool_decide ("Data_de_Nascimento"%string ∈ base) &&
                             negb (bool_decide ("Idade"%string ∈ base))
                          then ["Idade"%string] else []) /\
               length (rows d) = length (rows d0)).
  { unfold add_idade in A. unfold has_col in A. rewrite L0 in A.
    destruct (bool_decide ("Data_de_Nascimento"%string ∈ base)).
    - destruct (forallb _ _); [|done]. injection A as <-.
      rewrite labels_assign, L0, length_rows_assign. split; [|done].
      destruct (bool_decide ("Idade"%string ∈ base)); simpl; [|done].
      by rewrite app_nil_r.
    - injection A as <-. simpl. by rewrite app_nil_r. }
  destruct Ld as [Ld Nd]. split.
  - unfold normalize_sexo, add_status.
    repeat match goal with
           | |- context [has_col ?c ?d] => destruct (has_col c d)
           end; rewrite ?length_rows_assign; congruence.
  - rewrite labels_normalize_sexo. unfold add_status.
    assert (S : bool_decide ("Status"%string ∈ labels d)
                = bool_decide ("Status"%string ∈ base)).
    { apply bool_decide_ext. rewrite Ld, elem_of_app. split; [|auto].
      intros [H|H]; [done|]. destruct (_ && _); [|by apply elem_of_nil in H].
      by apply list_elem_of_singleton in H. }
    destruct (has_col "Data_de_Demissao" d); rewrite labels_assign, S, Ld;
      destruct (bool_decide ("Status"%string ∈ base));
      by rewrite ?app_nil_r, <- ?app_assoc.
Qed.

End Cards.

(** ** The text of an amount *)

Lemma string_map_compose (f g : ascii -> ascii) (s : string) :
  string_map f (string_map g s) = string_map (fun c => f (g c)) s.
Proof. induction s as [|c s IH]; simpl; [done|]. by rewrite IH. Qed.

Lemma string_map_ext_in (f g : ascii -> ascii) (s : string) :
  (forall c, f c = g c \/ string_forallb (fun a => negb (Ascii.eqb a c)) s = true) ->
  string_map f s = string_map g s.
Proof.
  induction s as [|a s IH]; simpl; [done|]. intros H. f_equal.
  - destruct (H a) as [E|E]; [done|]. by rewrite Ascii.eqb_refl in E.
  - apply IH. intros c. destruct (H c) as [E|E]; [by left|right].
    by apply andb_true_iff in E as [_ E].
Qed.

Lemma string_map_append (f : ascii -> ascii) (s t : string) :
  string_map f (String.append s t)
  = String.append (string_map f s) (string_map f t).
Proof. induction s as [|c s IH]; simpl; [done|]. by rewrite IH. Qed.

Lemma string_map_length (f : ascii -> ascii) (s : string) :
  String.length (string_map f s) = String.length s.
Proof. induction s as [|c s IH]; simpl; [done|]. by rewrite IH. Qed.

Lemma string_length_append (s t : string) :
  String.length (String.append s t) = (String.length s + String.length t)%nat.
Proof. induction s as [|c s IH]; simpl; [done|]. by rewrite IH. Qed.

Lemma string_map_id (s : string) : string_map (fun c => c) s = s.
Proof. induction s as [|c s IH]; simpl; [done|]. by rewrite IH. Qed.

Lemma swap_separators_chars (s : string) :
  swap_separators s
  = string_map (fun c => if Ascii.eqb c "X" then "."%char else swap_char c) s.
Proof.
  unfold swap_separators, str_replace. rewrite !string_map_compose.
  apply string_map_ext_in. intros c. left. unfold swap_char.
  destruct (Ascii.eqb c ",") eqn:E1; [by apply Ascii.eqb_eq in E1 as ->|].
  destruct (Ascii.eqb c ".") eqn:E2; [by apply Ascii.eqb_eq in E2 as ->|].
  done.
Qed.

(** The three replacements of [brl] exchange the two separators of the
    printed number and touch nothing else, the letter X apart: "R$ " is
    followed by the number with a dot between the groups of thousands and
    a comma before the decimals.  Done twice on a text without an X, the
    exchange gives the text back. *)
Theorem brl_exchanges_the_separators (format_2f : Q -> string) (x : Q) :
  (brl_text format_2f x
   = String.append "R$ "
       (string_map (fun c => if Ascii.eqb c "X" then "."%char else swap_char c)
                   (format_2f x))) /\
  (string_forallb (fun a => negb (Ascii.eqb a "X")) (format_2f x) = true ->
   brl_text format_2f x = String.append "R$ " (string_map swap_char (format_2f x)) /\
   String.length (brl_text format_2f x) = (3 + String.length (format_2f x))%nat /\
   swap_separators (swap_separators (format_2f x)) = format_2f x).
Proof.
  assert (E : brl_text format_2f x
              = String.append "R$ "
                  (string_map (fun c => if Ascii.eqb c "X" then "."%char
                                        else swap_char c) (format_2f x))).
  { unfold brl_text. rewrite swap_separators_chars, string_map_append. done. }
  split; [exact E|]. intros HX.
  assert (E' : string_map (fun c => if Ascii.eqb c "X" then "."%char
                                    else swap_char c) (format_2f x)
               = string_map swap_char (format_2f x)).
  { apply string_map_ext_in. intros c.
    destruct (Ascii.eqb c "X") eqn:Ec; [|by left].
    right. apply Ascii.eqb_eq in Ec as ->. exact HX. }
  split; [by rewrite E, E'|]. split.
  - by rewrite E, string_length_append, string_map_length.
  - rewrite !swap_separators_chars, E', string_map_compose.
    transitivity (string_map (fun c => c) (format_2f x)).
    + apply string_map_ext_in. intros c.
      destruct (Ascii.eqb c "X") eqn:Ec.
      { right. apply Ascii.eqb_eq in Ec as ->. exact HX. }
      left. unfold swap_char.
      destruct (Ascii.eqb c ",") eqn:E1; [by apply Ascii.eqb_eq in E1 as ->|].
      destruct (Ascii.eqb c ".") eqn:E2; [by apply Ascii.eqb_eq in E2 as ->|].
      by rewrite Ec, E1, E2.
    + apply string_map_id.
Qed.

(** ** The region code of an address *)

Lemma at_end_inv (t : string) :
  at_end t = true <-> t = EmptyString \/ t = String newline EmptyString.
Proof.
  destruct t as [|a [|b t]]; simpl.
  - split; [by left|done].
  - rewrite Ascii.eqb_eq. split; [intros ->; by right|].
    intros [|[= ->]]; done.
  - split; [done|]. intros [|]; done.
Qed.

Lemma estado_here_inv (t e : string) :
  estado_here t = Some e ->
  exists w c1 c2 suf,
    t = String "-" (String w (String c1 (String c2 suf))) /\
    e = String c1 (String c2 EmptyString) /\
    is_space w = true /\ c1 ≠ newline /\ c2 ≠ newline /\
    (suf = EmptyString \/ suf = String "," EmptyString \/
     suf = String newline EmptyString \/
     suf = String "," (String newline EmptyString)).
Proof.
  destruct t as [|d [|w [|c1 [|c2 rest]]]]; try done. cbn [estado_here].
  destruct (Ascii.eqb d "-") eqn:Ed; [|done]. apply Ascii.eqb_eq in Ed as ->.
  destruct (is_space w) eqn:Ew; [|done].
  destruct (Ascii.eqb c1 newline) eqn:E1; [done|].
  destruct (Ascii.eqb c2 newline) eqn:E2; [done|].
  apply Ascii.eqb_neq in E1, E2. cbn [andb negb]. intros H.
  assert (He : e = String c1 (String c2 EmptyString) /\
               (at_end rest = true \/
                exists rest', rest = String "," rest' /\ at_end rest' = true)).
  { destruct rest as [|a rest'].
    - simpl in H. injection H as <-. split; [done|by left].
    - destruct (Ascii.eqb a ",") eqn:Ea.
      + apply Ascii.eqb_eq in Ea as ->.
        destruct (at_end rest') eqn:Er; [|done]. injection H as <-.
        split; [done|]. right. eauto.
      + assert (H' : (if at_end (String a rest')
                      then Some (String c1 (String c2 EmptyString)) else None)
                     = Some e).
        { revert H Ea. clear. destruct a as [[] [] [] [] [] [] [] []]; done. }
        destruct (at_end (String a rest')) eqn:Er; [|done]. injection H' as <-.
        split; [done|by left]. }
  destruct He as [-> Hr]. exists w, c1, c2, rest.
  do 5 (split; [done|]).
  destruct Hr as [Hr|(rest' & -> & Hr)]; apply at_end_inv in Hr as [->| ->]; auto.
Qed.

Lemma extract_estado_inv (t e : string) :
  extract_estado t = Some e ->
  exists pre w c1 c2 suf,
    t = String.append pre (String "-" (String w (String c1 (String c2 suf)))) /\
    e = String c1 (String c2 EmptyString) /\
    is_space w = true /\ c1 ≠ newline /\ c2 ≠ newline /\
    (suf = EmptyString \/ suf = String "," EmptyString \/
     suf = String newline EmptyString \/
     suf = String "," (String newline EmptyString)).
Proof.
  induction t as [|a t IH]; [done|]. cbn [extract_estado].
  destruct (estado_here (String a t)) as [e'|] eqn:E.
  - intros [= <-]. apply estado_here_inv in E as (w & c1 & c2 & suf & -> & H).
    by exists EmptyString, w, c1, c2, suf.
  - intros (pre & w & c1 & c2 & suf & -> & H)%IH.
    by exists (String a pre), w, c1, c2, suf.
Qed.

Lemma upper_not_separator (c : ascii) :
  is_upper c = true -> c ≠ newline /\ c ≠ ","%char.
Proof. intros H. split; intros ->; done. Qed.

Lemma estado_here_before (a : ascii) (pre tail : string) :
  (exists c1 c2, is_upper c1 = true /\ is_upper c2 = true /\
     (tail = String "-" (String " " (String c1 (String c2 EmptyString))) \/
      tail = String "-" (String " " (String c1 (String c2 (String "," EmptyString)))))) ->
  estado_here (String a (String.append pre tail)) = None.
Proof.
  intros (c1 & c2 & U1 & U2 & Ht).
  destruct (upper_not_separator c1 U1) as [N1 M1].
  destruct (upper_not_separator c2 U2) as [N2 M2].
  destruct (estado_here _) as [e|] eqn:E; [exfalso|done].
  apply estado_here_inv in E as (w & x1 & x2 & suf & E & _ & _ & _ & _ & Hs).
  injection E as -> E.
  assert (L : (String.length pre + String.length tail
               = 3 + String.length suf)%nat).
  { rewrite <- string_length_append, E. done. }
  destruct pre as [|p1 [|p2 pre]].
  - destruct Ht as [->| ->]; simpl in E; injection E as _ _ _ <-;
      destruct Hs as [?|[?|[?|?]]]; congruence.
  - destruct Ht as [->| ->]; simpl in E; injection E as _ _ _ <-;
      destruct Hs as [?|[?|[?|?]]]; congruence.
  - destruct Ht as [->| ->]; simpl in L;
      destruct Hs as [->|[->|[->| ->]]]; simpl in L; lia.
Qed.

(** The region code of an address, when there is one, is made of the two
    characters that stand after a hyphen and a blank at the end of the
    address, one closing comma and one final line break set aside.  An
    address that ends with a hyphen, a space and two capital letters, with
    or without a closing comma, has those two letters for its code; a text
    of fewer than four characters has none. *)
Theorem region_code_is_the_address_suffix :
  (forall t e,
     extract_estado t = Some e ->
     String.length e = 2%nat /\
     exists pre w suf,
       t = String.append pre (String "-" (String w (String.append e suf))) /\
       is_space w = true /\
       (suf = EmptyString \/ suf = String "," EmptyString \/
        suf = String newline EmptyString \/
        suf = String "," (String newline EmptyString))) /\
  (forall pre c1 c2,
     is_upper c1 = true -> is_upper c2 = true ->
     extract_estado
       (String.append pre
          (String "-" (String " " (String c1 (String c2 EmptyString)))))
     = Some (String c1 (String c2 EmptyString)) /\
     extract_estado
       (String.append pre
          (String "-" (String " " (String c1 (String c2 (String "," EmptyString))))))
     = Some (String c1 (String c2 EmptyString))) /\
  (forall t, (String.length t < 4)%nat -> extract_estado t = None).
Proof.
  split; [|split].
  - intros t e (pre & w & c1 & c2 & suf & -> & -> & Hw & _ & _ & Hs)%extract_estado_inv.
    split; [done|]. by exists pre, w, suf.
  - intros pre c1 c2 U1 U2.
    destruct (upper_not_separator c1 U1) as [N1 _].
    destruct (upper_not_separator c2 U2) as [N2 _].
    apply Ascii.eqb_neq in N1, N2.
    induction pre as [|a pre [IH1 IH2]].
    + split; simpl; by rewrite N1, N2.
    + split.
      * change (String.append (String a pre) ?t) with (String a (String.append pre t)).
        cbn [extract_estado]. rewrite estado_here_before; [exact IH1|].
        exists c1, c2. auto.
      * change (String.append (String a pre) ?t) with (String a (String.append pre t)).
        cbn [extract_estado]. rewrite estado_here_before; [exact IH2|].
        exists c1, c2. auto.
  - intros t Ht. destruct (extract_estado t) as [e|] eqn:E; [exfalso|done].
    apply extract_estado_inv in E as (pre & w & c1 & c2 & suf & -> & _).
    rewrite string_length_append in Ht. simpl in Ht. lia.
Qed.

(** ** The total monthly cost *)



(** * The model run on the sample sheet *)

Local Open Scope string_scope.

(** Closed facts are settled by evaluation. *)
Ltac run := vm_compute; first [reflexivity | discriminate].

Lemma sheet_loads : run_load sheet = (loaded, true).
Proof. run. Qed.

Lemma sheet_on_disk df :
  one_file df "BaseFuncionarios.xlsx" = Some (Ok df).
Proof. unfold one_file. by rewrite bool_decide_eq_true_2. Qed.

Lemma nth_row_elem (l : list row) (i : nat) :
  (i < length l)%nat -> default ∅ (l !! i) ∈ l.
Proof.
  intros [r E]%lookup_lt_is_Some. rewrite E. simpl.
  by apply list_elem_of_lookup_2 with i.
Qed.

Lemma loaded_row_elem i : (i < 3)%nat -> loaded_row i ∈ rows loaded.
Proof.
  intros H. apply nth_row_elem.
  replace (length (rows loaded)) with 3%nat by run. exact H.
Qed.

Lemma load_fails_closed_witness :
  run_load sheet = (loaded, true) /\
  exists raw d,
    one_file sheet "BaseFuncionarios.xlsx" = Some (Ok raw) /\
    add_idade a_day (coerce_dates no_dates (normalize_columns plain_fold raw)) = Ok d /\
    loaded = normalize_sexo plain_str (add_status d).
Proof.
  split; [exact sheet_loads|].
  pose proof (load_fails_closed plain_fold no_dates plain_str (one_file sheet) a_day
                "BaseFuncionarios.xlsx" loaded true sheet_loads)
    as (_ & _ & _ & _ & H).
  exact (H eq_refl).
Defined.

Lemma status_iff_termination_date_witness :
  run_load sheet = (loaded, true) /\
  loaded_row 1 ∈ rows loaded /\
  at_col (loaded_row 1) "Status" = Str "Desligado" /\
  has_col "Status" loaded = true.
Proof.
  split; [exact sheet_loads|]. split; [apply loaded_row_elem; lia|].
  pose proof (status_iff_termination_date plain_fold no_dates plain_str
                (one_file sheet) a_day "BaseFuncionarios.xlsx" loaded (loaded_row 1)
                sheet_loads (loaded_row_elem 1 ltac:(lia))) as (S & _ & _ & C).
  split; [|exact C]. apply S. split; run.
Defined.

Lemma gender_is_m_f_or_missing_witness :
  run_load sheet = (loaded, true) /\
  has_col "Sexo" loaded = true /\
  (forall r, r ∈ rows loaded -> m_f_or_missing (at_col r "Sexo")).
Proof.
  assert (H : has_col "Sexo" loaded = true) by run.
  split; [exact sheet_loads|]. split; [exact H|].
  apply (gender_is_m_f_or_missing plain_fold no_dates plain_str no_engine
           (one_file sheet) a_day "BaseFuncionarios.xlsx" loaded sheet_loads H).
Defined.

(** On the sample: " m " becomes 'M', "Fem" nothing, "f" 'F'. *)
Example gender_on_the_sample :
  (fun r => at_col r "Sexo") <$> rows loaded = [Str "M"; NaN; Str "F"].
Proof. run. Qed.

Lemma blank_birth_date_fails_the_load_witness :
  carla_relabelled ∈ rows relabelled_blank_birth /\
  to_datetime no_dates (at_col carla_relabelled "Data_de_Nascimento") = NaN /\
  run_load sheet_blank_birth = (empty_frame, false).
Proof.
  assert (H : carla_relabelled ∈ rows relabelled_blank_birth).
  { apply nth_row_elem. replace (length _) with 2%nat by run. lia. }
  assert (N : to_datetime no_dates (at_col carla_relabelled "Data_de_Nascimento")
              = NaN) by run.
  assert (C : has_col "Data_de_Nascimento" relabelled_blank_birth = true) by run.
  split; [exact H|]. split; [exact N|].
  exact (blank_birth_date_fails_the_load plain_fold no_dates plain_str
           (one_file sheet_blank_birth) a_day "BaseFuncionarios.xlsx"
           sheet_blank_birth carla_relabelled (sheet_on_disk _) C H N).
Defined.



(** A table with a single salary has a slider with its two ends on that
    salary: the script stops there. *)
Example single_salary_stops_at_the_slider :
  forall re, sidebar_filters re todos solo = Raise StreamlitAPIException.
Proof. intros re. run. Qed.

(** The bounds of the slider are truncated: on the loaded sample the view
    also loses the row of the highest salary, 7000.50. *)
Example identity_filter_truncates_top_salary :
  forall re,
    (fun view => (fun r => at_col r "Nome_Completo") <$> rows view)
      <$> sidebar_filters re todos loaded
    = Ok [Str "Ana Silva"].
Proof. intros re. run. Qed.

(** C6, the claim as stated fails: the search string "." keeps every row
    of [staff], Bruno's among them, and "Bruno" holds no dot. *)
Lemma name_search_reads_a_pattern :
  (forall re, filter_nome re "." staff = Ok staff) /\
  v_bruno ∈ rows staff /\
  at_col v_bruno "Nome_Completo" = Str "Bruno" /\
  ~ icontains "." "Bruno".
Proof.
  split; [intros re; run|].
  split; [apply list_elem_of_further, list_elem_of_here|].
  split; [run|].
  intros (pre & post & E). vm_compute in E.
  do 5 (destruct pre as [|? pre]; simpl in E; [discriminate|injection E as _ E]).
  destruct pre; discriminate.
Qed.

Lemma name_search_keeps_literal_matches_witness :
  "ana" ≠ EmptyString /\ literal "ana" = true /\
  has_col "Nome_Completo" loaded = true /\
  dtype_of "Nome_Completo" loaded = Some object /\
  exists mask,
    filter_nome no_engine "ana" loaded = Ok (select_rows mask loaded) /\
    (forall r, mask r = true <->
       exists name, at_col r "Nome_Completo" = Str name /\ icontains "ana" name) /\
    (forall r, at_col r "Nome_Completo" = NaN -> mask r = false).
Proof.
  assert (Q : "ana" ≠ EmptyString) by discriminate.
  assert (L : literal "ana" = true) by run.
  assert (C : has_col "Nome_Completo" loaded = true) by run.
  assert (D : dtype_of "Nome_Completo" loaded = Some object) by run.
  do 4 (split; [assumption|]).
  apply (name_search_keeps_literal_matches no_engine "ana" loaded Q L C D).
Defined.

(** On the sample "ana" finds Ana Silva and MARIANA Costa, not Bruno. *)
Example name_search_on_the_sample :
  forall re,
    (fun view => (fun r => at_col r "Nome_Completo") <$> rows view)
      <$> filter_nome re "ana" loaded
    = Ok [Str "Ana Silva"; Str "MARIANA Costa"].
Proof. intros re. run. Qed.

Lemma annual_payroll_is_twelve_times_salaries_witness :
  has_col "Salario_Base" staff = true /\
  Forall (fun r => number_or_missing (at_col r "Salario_Base") = true) (rows staff) /\
  exists x,
    folha_salarial_anual_fmt staff = Ok (Reais (Num x)) /\
    (x == 12 * total_salary (rows staff))%Q.
Proof.
  assert (C : has_col "Salario_Base" staff = true) by run.
  assert (N : Forall (fun r => number_or_missing (at_col r "Salario_Base") = true)
                     (rows staff)) by (repeat constructor; run).
  split; [exact C|]. split; [exact N|].
  destruct (proj2 (annual_payroll_is_twelve_times_salaries staff) C N)
    as (x & E & Hx & _).
  exists x. split; assumption.
Defined.

(** On the sample: 5000 and 6000 a month make 132000 a year; without the
    department "Ops" the 6000 are gone and 60000 remain. *)
Example payroll_on_the_sample :
  folha_salarial_anual_fmt staff = Ok (Reais (Num (132000 # 1))) /\
  folha_salarial_anual_fmt (filter_area (Str "Vendas") staff)
  = Ok (Reais (Num (60000 # 1))) /\
  folha_salarial_anual_fmt (drop_columns ["Salario_Base"] staff) = Ok NA.
Proof. repeat split; run. Qed.

Lemma missing_optional_column_raises_witness :
  has_col "Status" loaded_no_hire = true /\
  has_col "Data_de_Contratacao" loaded_no_hire = false /\
  kpis a_day loaded_no_hire = Raise (KeyError "Data_de_Contratacao") /\
  has_col "Nome_Completo" staff_no_name = false /\
  filter_nome no_engine "ana" staff_no_name = Raise (KeyError "Nome_Completo").
Proof.
  assert (S : has_col "Status" loaded_no_hire = true) by run.
  assert (C : has_col "Data_de_Contratacao" loaded_no_hire = false) by run.
  assert (N : has_col "Nome_Completo" staff_no_name = false) by run.
  split; [exact S|]. split; [exact C|]. split; [|split; [exact N|]].
  - exact (proj1 (missing_optional_column_raises no_engine a_day loaded_no_hire "ana")
             S C).
  - apply (proj2 (missing_optional_column_raises no_engine a_day staff_no_name "ana"));
      [discriminate|exact N].
Defined.

(** The whole script on the sheet without hire dates stops at the KPI
    block. *)
Example app_without_hire_dates :
  forall re, run_app re sheet_no_hire = Raise (KeyError "Data_de_Contratacao").
Proof. intros re. run. Qed.

Lemma downloads_keep_chart_columns_witness :
  has_col "Custo_Total_Mensal" loaded = false /\
  exists out,
    charts loaded = Ok out /\
    "Custo_Total_Mensal" ∈ (excel_buffer (table_and_downloads blank_cards out)).1 /\
    "Faixa_Etaria" ∈ (excel_buffer (table_and_downloads blank_cards out)).1.
Proof.
  assert (C : has_col "Custo_Total_Mensal" loaded = false) by run.
  assert (I : has_col "Idade" loaded = true) by run.
  split; [exact C|].
  destruct (charts loaded) as [out|e] eqn:E.
  - exists out. split; [reflexivity|].
    destruct (downloads_keep_chart_columns loaded out blank_cards C E)
      as ((H1 & H2 & _) & _).
    split; [exact H1|exact (H2 I)].
  - exfalso. assert (O : is_ok (charts loaded) = true) by run.
    rewrite E in O. discriminate.
Defined.

(** The whole script on the sample sheet: the spreadsheet is written with
    the age bucket and the total monthly cost, the table is shown without
    them. *)
Example app_on_the_sample :
  forall re,
    run_app re sheet
    = Ok (Some
            (["Nome_Completo"; "Data_de_Nascimento"; "Data_de_Contratacao";
              "Data_de_Demissao"; "Sexo"; "Area"; "Nivel"; "Cargo";
              "Salario_Base"; "Idade"; "Status"; "Faixa_Etaria";
              "Custo_Total_Mensal"],
             Some ["Nome_Completo"; "Data_de_Nascimento"; "Data_de_Contratacao";
                   "Data_de_Demissao"; "Sexo"; "Area"; "Nivel"; "Cargo";
                   "Salario_Base"; "Idade"; "Status"],
             Reais (Num (60000 # 1)))).
Proof. intros re. run. Qed.

Lemma region_code_is_never_computed_witness :
  run_load sheet = (loaded, true) /\ word_labels loaded.
Proof.
  split; [exact sheet_loads|].
  exact (proj1 (region_code_is_never_computed plain_fold no_dates plain_str no_engine
                  (one_file sheet) a_day "BaseFuncionarios.xlsx" loaded sheet_loads)).
Defined.

Lemma filtered_view_is_a_selection_witness :
  sidebar_filters no_engine todos staff = Ok paid_staff /\
  columns paid_staff = columns staff /\
  (length (rows paid_staff) <= length (rows staff))%nat.
Proof.
  assert (H : sidebar_filters no_engine todos staff = Ok paid_staff) by run.
  split; [exact H|].
  destruct (filtered_view_is_a_selection no_engine todos staff paid_staff H)
    as (C & _ & _ & L).
  split; [exact C|exact L].
Defined.

(** The worked example: the department "Sales" keeps Ana and Bruno, with
    mean salary 6000; the status "Ativo" on top of it keeps Ana alone, with
    her 5000. *)
Example sales_then_active_example :
  forall re,
    names_and_mean
      (sidebar_filters re
         (mkSidebar (Str "Sales") (Str "Todos") (Str "Todos") None (Str "Todos") "")
         trio)
    = Ok ([Str "Ana"; Str "Bruno"], Num (12000 # 2)) /\
    names_and_mean
      (sidebar_filters re
         (mkSidebar (Str "Sales") (Str "Todos") (Str "Todos") None (Str "Ativo") "")
         trio)
    = Ok ([Str "Ana"], Num (5000 # 1)).
Proof. intros re. split; run. Qed.

(** The age buckets are closed on the left: 17 falls in "0-18", 18 and 20
    in "19-25", 40 in "36-45", 70 in "65+", and an age of 100 or more in no
    bucket. *)
Example age_bucket_example :
  faixa_etaria <$> [Num (17 # 1); Num (18 # 1); Num (20 # 1); Num (40 # 1);
                    Num (70 # 1); Num (100 # 1)]
  = [Ok (Str "0-18"); Ok (Str "19-25"); Ok (Str "19-25"); Ok (Str "36-45");
     Ok (Str "65+"); Ok NaN].
Proof. run. Qed.

(** ** The further properties on the sample *)

Lemma is_ok_value {A : Type} (d : A) (m : result A) :
  is_ok m = true -> m = Ok (value_or d m).
Proof. by destruct m. Qed.

Lemma default_slider_cuts_above_whole_maximum_witness :
  slider_bounds staff = Ok (Some (5000, 6000)) /\
  filter_salario None staff
  = Ok (select_rows (fun r => match at_col r "Salario_Base" with
                              | Num q => Qle_bool q (inject_Z 6000)
                              | _ => false
                              end) staff).
Proof.
  assert (B : slider_bounds staff = Ok (Some (5000, 6000))) by run.
  assert (N : Forall (fun r => match at_col r "Salario_Base" with
                               | NaN => True
                               | Num q => (0 <= q)%Q
                               | _ => False
                               end) (rows staff)).
  { repeat constructor; vm_compute; first [exact I | discriminate]. }
  split; [exact B|].
  exact (proj1 (default_slider_cuts_above_whole_maximum staff 5000 6000 N B)).
Defined.

Lemma loaded_ages_are_whole_witness :
  run_load sheet = (loaded, true) /\
  has_col "Data_de_Nascimento" loaded = true /\
  has_col "Idade" loaded = true.
Proof.
  assert (H : has_col "Data_de_Nascimento" loaded = true) by run.
  split; [exact sheet_loads|]. split; [exact H|].
  exact (proj1 (loaded_ages_are_whole plain_fold no_dates plain_str (one_file sheet)
                  a_day "BaseFuncionarios.xlsx" loaded sheet_loads H)).
Defined.

(** On the sample: born on day 7305, 9000 and 10000 after 1970-01-01, the
    three employees are 35, 31 and 28 on day 20328. *)
Example ages_on_the_sample :
  (fun r => at_col r "Idade") <$> rows loaded
  = [Num (35 # 1); Num (31 # 1); Num (28 # 1)].
Proof. run. Qed.

Lemma card_counts_add_up_witness :
  run_load sheet = (loaded, true) /\
  sidebar_filters no_engine todos loaded = Ok loaded_view /\
  kpis a_day loaded_view = Ok loaded_cards /\
  (headcount_ativo loaded_cards + total_demissoes loaded_cards
   = headcount_total loaded_cards)%nat.
Proof.
  assert (V : sidebar_filters no_engine todos loaded = Ok loaded_view).
  { apply is_ok_value. run. }
  assert (K : kpis a_day loaded_view = Ok loaded_cards).
  { apply is_ok_value. run. }
  split; [exact sheet_loads|]. split; [exact V|]. split; [exact K|].
  exact (proj1 (card_counts_add_up plain_fold no_dates plain_str no_engine
                  (one_file sheet) a_day "BaseFuncionarios.xlsx" loaded loaded_view
                  todos loaded_cards sheet_loads V K)).
Defined.

Lemma mean_salary_matches_payroll_witness :
  has_col "Salario_Base" staff = true /\
  Forall (fun r => number_or_missing (at_col r "Salario_Base") = true) (rows staff) /\
  exists m x,
    salario_medio_fmt staff = Ok (Reais (Num m)) /\
    folha_salarial_anual_fmt staff = Ok (Reais (Num x)) /\
    (m * inject_Z
           (Z.of_nat
              (length (List.filter (fun r => notna (at_col r "Salario_Base"))
                                   (rows staff))))
     == total_salary (rows staff))%Q /\
    (x == 12 *
          (m * inject_Z
                 (Z.of_nat
                    (length (List.filter (fun r => notna (at_col r "Salario_Base"))
                                         (rows staff))))))%Q.
Proof.
  assert (C : has_col "Salario_Base" staff = true) by run.
  assert (N : Forall (fun r => number_or_missing (at_col r "Salario_Base") = true)
                     (rows staff)) by (repeat constructor; run).
  assert (P : (0 < length (List.filter (fun r => notna (at_col r "Salario_Base"))
                                       (rows staff)))%nat).
  { vm_compute. lia. }
  split; [exact C|]. split; [exact N|].
  pose proof (mean_salary_matches_payroll staff C N) as H. cbv zeta in H.
  exact (proj2 (proj2 H) P).
Defined.

(** On the sample: 5000 and 6000 over the two rows that have a salary, the
    row without one left out of the mean. *)
Example mean_salary_on_the_sample :
  salario_medio_fmt staff = Ok (Reais (Num (11000 # 2))).
Proof. run. Qed.

Lemma offered_option_keeps_its_rows_witness :
  options "Area" staff = Some [Str "Todos"; Str "Vendas"; Str "Ops"] /\
  rows (filter_equal "Area" (Str "Ops") staff) ≠ [].
Proof.
  assert (O : options "Area" staff = Some [Str "Todos"; Str "Vendas"; Str "Ops"])
    by run.
  split; [exact O|].
  pose proof (offered_option_keeps_its_rows "Area" staff _ O) as (_ & _ & H).
  destruct (H (Str "Ops")) as (_ & _ & H3).
  { apply list_elem_of_further, list_elem_of_further, list_elem_of_here. }
  exact (proj1 (H3 ltac:(discriminate) ltac:(discriminate))).
Defined.

Lemma table_shows_the_view_cells_witness :
  charts loaded = Ok charted /\
  forall shown,
    df_display (table_and_downloads blank_cards charted) = Some shown ->
    labels shown
    = List.filter (fun l => negb (bool_decide (l ∈ transient_cols))) (labels loaded).
Proof.
  assert (C : charts loaded = Ok charted).
  { apply is_ok_value. run. }
  split; [exact C|]. intros shown H.
  exact (proj1 (proj2 (table_shows_the_view_cells loaded charted blank_cards C)
                      shown H)).
Defined.


(** On [staff], picking "Ops" leaves Carla alone, with her 6000: the
    slider refuses two ends that coincide. *)
Example one_department_stops_at_the_slider :
  forall re,
    sidebar_filters re
      (mkSidebar (Str "Ops") (Str "Todos") (Str "Todos") None (Str "Todos") "")
      staff
    = Raise StreamlitAPIException.
Proof. intros re. run. Qed.


Lemma load_keeps_the_sheet_layout_witness :
  one_file sheet "BaseFuncionarios.xlsx" = Some (Ok sheet) /\
  run_load sheet = (loaded, true) /\
  length (rows loaded) = length (rows sheet).
Proof.
  split; [apply sheet_on_disk|]. split; [exact sheet_loads|].
  exact (proj1 (load_keeps_the_sheet_layout plain_fold no_dates plain_str
                  (one_file sheet) a_day "BaseFuncionarios.xlsx" sheet loaded
                  (sheet_on_disk sheet) sheet_loads)).
Defined.

(** On the sample: the nine columns of the sheet, then the age and the
    status. *)
Example layout_of_the_sample :
  labels loaded
  = ["Nome_Completo"; "Data_de_Nascimento"; "Data_de_Contratacao";
     "Data_de_Demissao"; "Sexo"; "Area"; "Nivel"; "Cargo"; "Salario_Base";
     "Idade"; "Status"].
Proof. run. Qed.


(** On the sample: with the salary as the only cost column, the total is
    the salary, and zero for the row without one. *)
Example monthly_cost_on_the_sample :
  (fun r => at_col r "Custo_Total_Mensal") <$> rows costed
  = [Num (5000 # 1); Num 0; Num (6000 # 1)].
Proof. run. Qed.

(** On the sample: an address ending in "- SP" belongs to SP, one without
    the hyphen to no region. *)
Example region_codes_on_the_sample :
  extract_estado "Rua A, 10 - Sao Paulo - SP" = Some "SP" /\
  extract_estado "Rua A, 10 - Sao Paulo - SP," = Some "SP" /\
  extract_estado "Rua A, 10, Sao Paulo SP" = None.
Proof. repeat split; run. Qed.

(** On the sample: "1,234,567.89" is shown as "R$ 1.234.567,89". *)
Example brl_on_the_sample :
  brl_text (fun _ => "1,234,567.89") 0 = "R$ 1.234.567,89".
Proof. run. Qed.
